(** * Bottin: the public export of the RSN member directory

    A shallow embedding of [prepare_public_csv.py]: the consent-driven
    classification of member rows, the masking of the sensitive columns
    of pending members, the tally of excluded members and the assembly
    of the rows handed to [csv.DictWriter].

    Python strings are sequences of Unicode code points, dictionaries
    are finite maps, and the row objects live in a store of objects so
    that [dict(row)] (a copy) and [public_rows.append(row)] (an alias)
    are told apart. *)

From Stdlib Require Import ZArith NArith List Ascii String DecimalString DecimalZ.
From stdpp Require Import gmap list fin_maps.

Local Open Scope N_scope.

(** ** Python strings *)

(** A [str] is the list of its code points. *)
Abbreviation pystr := (list N).

(** Literals are written as in the UTF-8 source file and decoded. *)
Fixpoint utf8_decode (bs : list N) : pystr :=
  match bs with
  | [] => []
  | b :: t =>
      if b <? 128 then b :: utf8_decode t
      else if b <? 224 then
        match t with
        | c1 :: t1 => ((b mod 32) * 64 + c1 mod 64) :: utf8_decode t1
        | [] => []
        end
      else if b <? 240 then
        match t with
        | c1 :: c2 :: t2 =>
            ((b mod 16) * 4096 + (c1 mod 64) * 64 + c2 mod 64) :: utf8_decode t2
        | _ => []
        end
      else
        match t with
        | c1 :: c2 :: c3 :: t3 =>
            ((b mod 8) * 262144 + (c1 mod 64) * 4096 + (c2 mod 64) * 64 + c3 mod 64)
              :: utf8_decode t3
        | _ => []
        end
  end.

Definition py (s : string) : pystr :=
  utf8_decode (List.map N_of_ascii (list_ascii_of_string s)).

(** [str.isspace] on one code point (CPython's [_PyUnicode_IsWhitespace]). *)
Definition isspace (c : N) : bool :=
  ((9 <=? c) && (c <=? 13)) || ((28 <=? c) && (c <=? 32))
  || (c =? 133) || (c =? 160) || (c =? 5760)
  || ((8192 <=? c) && (c <=? 8202))
  || (c =? 8232) || (c =? 8233) || (c =? 8239) || (c =? 8287) || (c =? 12288).

Fixpoint lstrip (s : pystr) : pystr :=
  match s with
  | [] => []
  | c :: t => if isspace c then lstrip t else s
  end.

(** [s.strip()] *)
Definition strip (s : pystr) : pystr := rev (lstrip (rev (lstrip s))).

(** [s.startswith(p)] *)
Fixpoint startswith (s p : pystr) : bool :=
  match p, s with
  | [], _ => true
  | _ :: _, [] => false
  | a :: p', b :: s' => (a =? b) && startswith s' p'
  end.

(** [p in s] for strings: [p] occurs as a contiguous run of [s]. *)
Fixpoint contains (s p : pystr) : bool :=
  startswith s p ||
  match s with
  | [] => false
  | _ :: s' => contains s' p
  end.

(** [str.lower] on one code point below U+0100: A-Z and the capital
    letters of Latin-1 (U+00C0-U+00DE but the multiplication sign) move
    32 places up, every other code point of that range is unchanged. *)
Definition lower_latin1 (c : N) : N :=
  if ((65 <=? c) && (c <=? 90))
     || ((192 <=? c) && (c <=? 222) && negb (c =? 215))
  then c + 32 else c.

(** [f"{n}"] for an [int]. *)
Definition str_of_int (z : Z) : pystr :=
  py (NilZero.string_of_int (Z.to_int z)).

(** ** Dictionaries and the store of objects *)

(** A row is a [dict] from column names to cell values. *)
Abbreviation dict := (gmap pystr pystr).

(** [d.get(k, '')] *)
Definition get (d : dict) (k : pystr) : pystr := default [] (d !! k).

(** Objects are referred to by their index in the store. [dict(row)]
    appends a copy, [masked[col] = v] updates the object in place. *)
Definition deref (h : list dict) (l : nat) : dict := default ∅ (h !! l).

Definition setitem (h : list dict) (l : nat) (k v : pystr) : list dict :=
  alter (fun d : dict => <[k := v]> d) l h.

(** ** Configuration *)

Definition COL_PRENOM : pystr := py "Prénom".
Definition COL_NOM : pystr := py "Nom de la famille".
Definition COL_EMAIL : pystr := py "E-mail / Courriel".
Definition COL_EMAIL2 : pystr := py "Autre courriel".
Definition COL_STATUT : pystr := py "Statut actuel".
Definition COL_INSTITUTION : pystr := py "Institution / organisation 1".
Definition COL_TYPE : pystr := py "Type d'adhesion".
Definition COL_CONSENT : pystr :=
  py "Autorisez-vous le RSN à vous créer un profil de membre public".

Definition COLS_SENSITIVE : list pystr :=
  [ COL_EMAIL;
    COL_EMAIL2;
    COL_STATUT;
    COL_INSTITUTION;
    py "Réseau 1";
    py "Expertise";
    py "Thèmes d'intérêt";
    py "Projet de recherche";
    py "Étudiant.e.s";
    py "Référée par";
    py "Droit de vote";
    py "ORCID";
    py "CV / LinkedIn";
    py "Évaluateur du RSN - nouv. formulaire" ].

Definition PLACEHOLDER : dict :=
  <[COL_EMAIL := py "membre@rsn-placeholder.ca"]>
    (<[COL_INSTITUTION := py "Institution non divulguée"]>
       (<[COL_STATUT := py "Non divulgué"]> ∅)).

Definition STATS_ROW_MARKER : pystr := py "__STATS_EXCLUDED__".

(** ** The run *)

(** The three outcomes of the consent question (a vocabulary of the
    specification; the code branches without naming them). *)
Inductive disposition := Public | Excluded | Pending.

(** [excluded_stats] *)
Record counters := Counters {
  total : Z;
  regulier : Z;
  etudiant : Z;
  partenaire : Z
}.

(** The variables of [prepare_public_csv] that the loop updates, and
    the store their references point into. *)
Record state := State {
  heap : list dict;
  public_rows : list nat;
  pending_rows : list nat;
  excluded_stats : counters
}.

(** What a finished run leaves: the store, the references in
    [all_public], the tally, and the rows handed to the writer (the
    header row first). *)
Record export := Export {
  final_heap : list dict;
  all_public : list nat;
  tally : counters;
  written : list (list pystr)
}.

Inductive outcome :=
| SysExit (code : Z)
| Done (e : export).

(** The file at [output_path] after a run that found it holding [disk]:
    [open(output_path, 'w')] is reached only by a run that does not
    exit. *)
Definition output_after (disk : option (list (list pystr))) (o : outcome)
  : option (list (list pystr)) :=
  match o with
  | SysExit _ => disk
  | Done e => Some (written e)
  end.

(** [not s] for a string *)
Definition falsy (s : pystr) : bool :=
  match s with [] => true | _ => false end.

(** The membership test of the column check, [col not in headers]
    negated. *)
Definition in_headers (col : pystr) (headers : list pystr) : bool :=
  bool_decide (col ∈ headers).

(** The column check: the first critical column that [headers] lacks,
    at which the run exits. *)
Fixpoint first_missing (cols headers : list pystr) : option pystr :=
  match cols with
  | [] => None
  | col :: cols' =>
      if in_headers col headers then first_missing cols' headers else Some col
  end.

(** [csv.DictWriter(f, fieldnames=headers, extrasaction='ignore')]: a
    row is written as the cells [rowdict.get(key, '')] for the keys of
    [fieldnames]; keys outside [fieldnames] are ignored. *)
Definition dict_to_list (headers : list pystr) (d : dict) : list pystr :=
  List.map (get d) headers.

(** [{h: '' for h in headers}] *)
Definition blank_row (headers : list pystr) : dict :=
  foldl (fun (d : dict) h => <[h := []]> d) ∅ headers.

(** The redaction loop over the object [masked]. *)
Definition mask_step (masked : nat) (h : list dict) (col : pystr) : list dict :=
  match deref h masked !! col with
  | Some _ => setitem h masked col (get PLACEHOLDER col)
  | None => h
  end.

Definition mask_loop (masked : nat) (h : list dict) : list dict :=
  foldl (mask_step masked) h COLS_SENSITIVE.

(** The tally of one excluded member. *)
Definition count_excluded (type_adh : pystr) (c : counters) : counters :=
  let c1 := Counters (total c + 1) (regulier c) (etudiant c) (partenaire c) in
  if contains type_adh (py "régulier") || contains type_adh (py "regulier") then
    Counters (total c1) (regulier c1 + 1) (etudiant c1) (partenaire c1)
  else if contains type_adh (py "étudiant") || contains type_adh (py "etudiant") then
    Counters (total c1) (regulier c1) (etudiant c1 + 1) (partenaire c1)
  else if contains type_adh (py "partenaire") then
    Counters (total c1) (regulier c1) (etudiant c1) (partenaire c1 + 1)
  else c1.

(** The packed counters of the statistics row. *)
Definition packed (c : counters) : pystr :=
  str_of_int (total c) ++ py "," ++ str_of_int (regulier c) ++ py ","
  ++ str_of_int (etudiant c) ++ py "," ++ str_of_int (partenaire c).

Definition make_stats_row (headers : list pystr) (c : counters) : dict :=
  <[COL_CONSENT := py "stats"]>
    (<[COL_EMAIL := packed c]>
       (<[COL_NOM := []]>
          (<[COL_PRENOM := STATS_ROW_MARKER]> (blank_row headers)))).

(** ** Exceptions *)

Inductive exn := TypeError | AttributeError | IndexError.

Inductive pyresult (A : Type) :=
| Ok (a : A)
| Raise (e : exn).
Arguments Ok {A} a.
Arguments Raise {A} e.

(** ** From the workbook to the table

    [excel_to_csv], from the sheets of the workbook that [openpyxl]
    loaded, in the order of the file: each has a title and is a
    worksheet, with the cells that [iter_rows] yields row by row, or a
    chart sheet, which has no cells and no [iter_rows]. A cell has a
    value or [None], and may have a hyperlink, whose target is a text
    or [None]. The value of a cell is a text or something else (a
    number, a date, a truth value), which [str] renders in a way that
    is the library's: [str_other]. *)

Inductive cell_value (A : Type) :=
| Text (s : pystr)
| Other (a : A).
Arguments Text {A} s.
Arguments Other {A} a.

Record hyperlink := Hyperlink { target : option pystr }.

Record cell (A : Type) := Cell {
  value : option (cell_value A);
  cell_hyperlink : option hyperlink
}.
Arguments Cell {A} value cell_hyperlink.
Arguments value {A} c.
Arguments cell_hyperlink {A} c.

Inductive sheet (A : Type) :=
| Worksheet (rows : list (list (cell A)))
| Chartsheet.
Arguments Worksheet {A} rows.
Arguments Chartsheet {A}.

(** [str(value)] *)
Definition str_of_value {A} (str_other : A -> pystr) (v : cell_value A)
  : pystr :=
  match v with
  | Text s => s
  | Other a => str_other a
  end.

(** The body of the loop over the cells of a row (lines 32-36). *)
Definition cell_text {A} (str_other : A -> pystr) (c : cell A) : pystr :=
  let value := match value c with Some v => v | None => Text [] end in
  let value :=
    match cell_hyperlink c with
    | Some h =>
        match target h with
        | Some t => match t with [] => value | _ => Text t end
        | None => value
        end
    | None => value
    end in
  strip (str_of_value str_other value).

(** [wb.worksheets], [wb.chartsheets] and [wb.sheetnames]: the sheets
    of either kind, and the titles of all of them. *)
Definition is_worksheet {A} (s : pystr * sheet A) : bool :=
  match snd s with Worksheet _ => true | Chartsheet => false end.

Definition worksheets {A} (wb : list (pystr * sheet A))
  : list (pystr * sheet A) :=
  List.filter is_worksheet wb.

Definition chartsheets {A} (wb : list (pystr * sheet A))
  : list (pystr * sheet A) :=
  List.filter (fun s => negb (is_worksheet s)) wb.

Definition sheetnames {A} (wb : list (pystr * sheet A)) : list pystr :=
  List.map fst wb.

(** The first sheet of a list that has the title. *)
Fixpoint sheet_named {A} (sheets : list (pystr * sheet A)) (name : pystr)
  : option (sheet A) :=
  match sheets with
  | [] => None
  | (title, s) :: sheets' =>
      if decide (title = name) then Some s else sheet_named sheets' name
  end.

(** [wb[key]] looks among [wb.worksheets + wb.chartsheets]; it has a
    sheet exactly for the titles of [wb.sheetnames]. *)
Definition workbook_getitem {A} (wb : list (pystr * sheet A)) (key : pystr)
  : option (sheet A) :=
  sheet_named (worksheets wb ++ chartsheets wb) key.

(** The rows handed to [csv.writer]. For a name that is no title,
    [wb.worksheets[0]] of a workbook without worksheet raises
    [IndexError]; a chart sheet of the name has no [iter_rows], which
    raises [AttributeError]. *)
Definition excel_to_csv {A} (str_other : A -> pystr)
           (wb : list (pystr * sheet A)) (sheet_name : pystr)
  : pyresult (list (list pystr)) :=
  let ws :=
    match workbook_getitem wb sheet_name with
    | Some ws => Ok ws
    | None =>
        match worksheets wb with
        | [] => Raise IndexError
        | (_, ws) :: _ => Ok ws
        end
    end in
  match ws with
  | Raise e => Raise e
  | Ok Chartsheet => Raise AttributeError
  | Ok (Worksheet rows) => Ok (List.map (List.map (cell_text str_other)) rows)
  end.

(** ** Detecting the encoding

    [detect_encoding], from the bytes of the file. [raw.decode('utf-8')]
    raises on a byte sequence that is not well-formed UTF-8: a stray
    continuation byte, an overlong form, a surrogate, a code point
    beyond U+10FFFF, or a sequence cut short. *)

Definition continuation (b : N) : bool := (128 <=? b) && (b <=? 191).

Fixpoint utf8_valid (bs : list N) : bool :=
  match bs with
  | [] => true
  | b :: t =>
      if b <? 128 then utf8_valid t
      else if (194 <=? b) && (b <=? 223) then
        match t with
        | c1 :: t1 => continuation c1 && utf8_valid t1
        | _ => false
        end
      else if (224 <=? b) && (b <=? 239) then
        match t with
        | c1 :: c2 :: t2 =>
            (if b =? 224 then (160 <=? c1) && (c1 <=? 191)
             else if b =? 237 then (128 <=? c1) && (c1 <=? 159)
             else continuation c1)
            && continuation c2 && utf8_valid t2
        | _ => false
        end
      else if (240 <=? b) && (b <=? 244) then
        match t with
        | c1 :: c2 :: c3 :: t3 =>
            (if b =? 240 then (144 <=? c1) && (c1 <=? 191)
             else if b =? 244 then (128 <=? c1) && (c1 <=? 143)
             else continuation c1)
            && continuation c2 && continuation c3 && utf8_valid t3
        | _ => false
        end
      else false
  end.

(** [f.read(500)], then the attempt to decode. *)
Definition detect_encoding (file : list N) : pystr :=
  let raw := take 500 file in
  if utf8_valid raw then py "utf-8" else py "iso-8859-1".

(** ** Reading the table

    [read_csv], from the records that [csv.reader] yields for the text
    of the file (a blank line yields the empty record); decoding and
    the lexing of delimiters and quotes are the library's. *)

(** [d[k] = v] on a dict kept in insertion order: a key that is there
    keeps its place. *)
Fixpoint od_set (d : list (pystr * option pystr)) (k : pystr)
         (v : option pystr) : list (pystr * option pystr) :=
  match d with
  | [] => [(k, v)]
  | (k', v') :: d' =>
      if decide (k = k') then (k, v) :: d' else (k', v') :: od_set d' k v
  end.

(** A row of [csv.DictReader]: the items under the field names (the
    value [None] is [restval]) and, for a record longer than the field
    names, the list put under the key [None] ([restkey]). *)
Record reader_row := ReaderRow {
  items : list (pystr * option pystr);
  rest : option (list pystr)
}.

(** [DictReader.__next__] on one record that is not empty. *)
Definition dictreader_row (fieldnames row : list pystr) : reader_row :=
  let d := foldl (fun d kv => od_set d (fst kv) (Some (snd kv))) []
                 (zip fieldnames row) in
  let lf := length fieldnames in
  let lr := length row in
  if (lf <? lr)%nat then ReaderRow d (Some (drop lf row))
  else ReaderRow (foldl (fun d k => od_set d k None) d (drop lr fieldnames))
                 None.

(** The loop of lines 98-100 over [row.items()]; the key [None] has no
    [strip], nor has the list under it. *)
Definition clean_row (r : reader_row) : pyresult dict :=
  let cleaned :=
    foldl (fun (m : dict) kv => <[strip (fst kv) := strip (default [] (snd kv))]> m)
          ∅ (items r) in
  match rest r with
  | Some _ => Raise AttributeError
  | None => Ok cleaned
  end.

(** The loop of lines 97-101; the reader skips the empty records. *)
Fixpoint read_rows (fieldnames : list pystr) (records : list (list pystr))
  : pyresult (list dict) :=
  match records with
  | [] => Ok []
  | [] :: records' => read_rows fieldnames records'
  | row :: records' =>
      match clean_row (dictreader_row fieldnames row) with
      | Raise e => Raise e
      | Ok cleaned =>
          match read_rows fieldnames records' with
          | Raise e => Raise e
          | Ok rows => Ok (cleaned :: rows)
          end
      end
  end.

(** The row read from one record that is not longer than the field
    names, and the records that give a row. *)
Definition cleaned_of (fieldnames row : list pystr) : dict :=
  foldl (fun (m : dict) kv => <[strip (fst kv) := strip (default [] (snd kv))]> m)
        ∅ (items (dictreader_row fieldnames row)).

Definition nonblank (row : list pystr) : bool :=
  match row with [] => false | _ => true end.

(** [reader.fieldnames] is the first record, or [None] for a file with
    no record, which no comprehension can run over. *)
Definition read_csv (records : list (list pystr))
  : pyresult (list pystr * list dict) :=
  match records with
  | [] => Raise TypeError
  | fieldnames :: body =>
      let headers := List.map strip fieldnames in
      match read_rows fieldnames body with
      | Raise e => Raise e
      | Ok rows => Ok (headers, rows)
      end
  end.

(** ** Sample inputs

    The three rows of the example of the specification, as it writes
    them and with a first name each, and a row that has no e-mail
    key. *)

Definition sample_headers : list pystr :=
  [COL_PRENOM; COL_NOM; COL_EMAIL; COL_TYPE; COL_CONSENT].

Definition spec_row1 : dict :=
  <[COL_CONSENT := py "Oui"]>
    (<[COL_EMAIL := py "a@x.com"]> (<[COL_TYPE := py "Régulier"]> ∅)).
Definition spec_row2 : dict :=
  <[COL_CONSENT := py "Non"]> (<[COL_TYPE := py "Étudiant"]> ∅).
Definition spec_row3 : dict :=
  <[COL_CONSENT := []]>
    (<[COL_EMAIL := py "b@x.com"]> (<[COL_TYPE := py "Partenaire"]> ∅)).

Definition named_row1 : dict := <[COL_PRENOM := py "Ana"]> spec_row1.
Definition named_row2 : dict := <[COL_PRENOM := py "Bruno"]> spec_row2.
Definition named_row3 : dict := <[COL_PRENOM := py "Chloé"]> spec_row3.

Definition row_without_email : dict :=
  <[COL_PRENOM := py "Ana"]> (<[COL_CONSENT := []]> ∅).

Definition nameless_row : dict :=
  <[COL_PRENOM := py "  "]> (<[COL_CONSENT := py "Non"]> ∅).

Definition sample_rows : list dict := [named_row1; named_row2; named_row3].

(** The records of a small input file: a header record with blanks
    around two names, a blank line, and a record shorter than the
    header record. *)
Definition sample_fieldnames : list pystr :=
  [py " Prénom"; py "Nom de la famille "; py "E-mail / Courriel";
   py "Type d'adhesion";
   py "Autorisez-vous le RSN à vous créer un profil de membre public"].

Definition sample_body : list (list pystr) :=
  [ [py "Ana"; py "Roy"; py " a@x.com "; py "Régulier"; py "Oui"];
    [];
    [py "Bruno"; []; py "b@x.com"; py "Étudiant"; py "Non"];
    [py "Chloé"; py "Roux"] ].

(** The second and third sample rows with another e-mail address. *)
Definition named_row2' : dict := <[COL_EMAIL := py "bruno@x.com"]> named_row2.
Definition named_row3' : dict := <[COL_EMAIL := py "chloe@x.com"]> named_row3.

(** Facts about the samples: membership in a list written out, or a
    closed computation. *)
Ltac sample_fact :=
  first [ solve [ apply list_elem_of_In; vm_compute;
                  repeat first [ left; reflexivity | right ] ]
        | vm_compute; reflexivity ].

(** A choice for the case tables beyond Latin-1, for closed examples:
    every sample string is Latin-1, where the choice plays no part. *)
Definition keep_beyond_latin1 : pystr -> pystr := fun s => s.

Section Run.

(** [str.lower] beyond Latin-1 follows Unicode's case tables, which are
    not part of the repository: they are a parameter. *)
Variable unicode_lower : pystr -> pystr.

(** [s.lower()] *)
Definition lower (s : pystr) : pystr :=
  if forallb (fun c => c <? 256) s then List.map lower_latin1 s
  else unicode_lower s.

(** The test of line 134: neither a first name nor a last name. *)
Definition nameless (d : dict) : bool :=
  falsy (strip (get d COL_PRENOM)) && falsy (strip (get d COL_NOM)).

(** The body of [for row in rows]. *)
Definition loop_body (st : state) (row : nat) : state :=
  let d := deref (heap st) row in
  if nameless d then st
  else
    let consent := lower (strip (get d COL_CONSENT)) in
    let type_adh := lower (strip (get d COL_TYPE)) in
    if startswith consent (py "oui") then
      State (heap st) (public_rows st ++ [row]) (pending_rows st)
            (excluded_stats st)
    else if startswith consent (py "non") then
      State (heap st) (public_rows st) (pending_rows st)
            (count_excluded type_adh (excluded_stats st))
    else
      let masked := length (heap st) in
      let h := mask_loop masked (heap st ++ [d]) in
      State h (public_rows st) (pending_rows st ++ [masked])
            (excluded_stats st).

(** The state before the loop: the rows read from the input are the
    objects 0, 1, ... of the store. *)
Definition initial (rows : list dict) : state :=
  State rows [] [] (Counters 0 0 0 0).

Definition classification_pass (rows : list dict) : state :=
  foldl loop_body (initial rows) (seq 0 (length rows)).

Definition prepare_public_csv (headers : list pystr) (rows : list dict)
  : outcome :=
  match first_missing [COL_PRENOM; COL_NOM; COL_CONSENT] headers with
  | Some _ => SysExit 1
  | None =>
      let st := classification_pass rows in
      let stats_row := length (heap st) in
      let h := heap st ++ [make_stats_row headers (excluded_stats st)] in
      let all_public := public_rows st ++ pending_rows st ++ [stats_row] in
      Done (Export h all_public (excluded_stats st)
              (headers
                 :: List.map (fun l => dict_to_list headers (deref h l))
                             all_public))
  end.

(** ** The run seen row by row

    The definitions below follow the words of the specification; the
    lemmas after them relate the loop over the store to them. *)

Definition consent_of (d : dict) : pystr := lower (strip (get d COL_CONSENT)).
Definition type_of (d : dict) : pystr := lower (strip (get d COL_TYPE)).

(** Record Classifier: begins with "oui", else begins with "non", else
    anything. *)
Definition disposition_of (consent : pystr) : disposition :=
  if startswith consent (py "oui") then Public
  else if startswith consent (py "non") then Excluded
  else Pending.

(** A row without any name is no member and gets no disposition. *)
Definition classify (d : dict) : option disposition :=
  if nameless d then None else Some (disposition_of (consent_of d)).

Definition is_public (d : dict) : bool :=
  match classify d with Some Public => true | _ => false end.
Definition is_excluded (d : dict) : bool :=
  match classify d with Some Excluded => true | _ => false end.
Definition is_pending (d : dict) : bool :=
  match classify d with Some Pending => true | _ => false end.

(** Field Redactor, on one record. *)
Definition mask_field (m : dict) (col : pystr) : dict :=
  match m !! col with
  | Some _ => <[col := get PLACEHOLDER col]> m
  | None => m
  end.

Definition mask (d : dict) : dict := foldl mask_field d COLS_SENSITIVE.

(** Statistics Aggregator, over a sequence of rows. *)
Definition tally_of (c : counters) (rows : list dict) : counters :=
  foldl (fun c d => if is_excluded d then count_excluded (type_of d) c else c)
        c rows.

(** The references of the public rows among [ds], the first of which is
    the object [i]. *)
Fixpoint pub_locs (i : nat) (ds : list dict) : list nat :=
  match ds with
  | [] => []
  | d :: ds' =>
      if is_public d then i :: pub_locs (S i) ds' else pub_locs (S i) ds'
  end.


(** The rows written by a run whose column check passes. *)
Definition lines_of (headers : list pystr) (rows : list dict)
  : list (list pystr) :=
  headers
    :: List.map (dict_to_list headers) (List.filter is_public rows)
    ++ List.map (fun d => dict_to_list headers (mask d))
                (List.filter is_pending rows)
    ++ [dict_to_list headers
          (make_stats_row headers (tally_of (Counters 0 0 0 0) rows))].

(** ** The run from the records of the input file

    Lines 112-182: the table is read, then exported. *)
Definition prepare_from_records (records : list (list pystr))
  : pyresult outcome :=
  match read_csv records with
  | Raise e => Raise e
  | Ok (headers, rows) => Ok (prepare_public_csv headers rows)
  end.

(** The file at [output_path] after the whole run: an exception in the
    reader leaves it as it was. *)
Definition file_after (disk : option (list (list pystr)))
           (r : pyresult outcome) : option (list (list pystr)) :=
  match r with
  | Raise _ => disk
  | Ok o => output_after disk o
  end.

(** ** The summary printed after the export *)

(** The column named at line 186. *)
Definition COL_AXE1 : pystr := py "1e Axe d'intérêt".

(** The numbers of the summary: [len(rows)], [len(public_rows)],
    [pending_with_form], [pending_without_form] and
    [excluded_stats['total']]. *)
Record summary := Summary {
  membres_total : Z;
  membres_publics : Z;
  pending_with_form : Z;
  pending_without_form : Z;
  membres_exclus : Z
}.

(** [sum(1 for r in pending_rows if r.get("1e Axe d'intérêt", '').strip())] *)
Definition count_with_form (h : list dict) (pending : list nat) : Z :=
  foldl (fun n r =>
           if falsy (strip (get (deref h r) COL_AXE1)) then n else (n + 1)%Z)
        0%Z pending.

Definition report (rows : list dict) : summary :=
  let st := classification_pass rows in
  let with_form := count_with_form (heap st) (pending_rows st) in
  Summary (Z.of_nat (length rows))
          (Z.of_nat (length (public_rows st)))
          with_form
          (Z.of_nat (length (pending_rows st)) - with_form)%Z
          (total (excluded_stats st)).

(** * Properties *)

(** ** The store *)

Lemma deref_middle (pre post : list dict) (d : dict) :
  deref (pre ++ d :: post) (length pre) = d.
Proof. unfold deref. by rewrite list_lookup_middle. Qed.

Lemma deref_new (h : list dict) (d : dict) : deref (h ++ [d]) (length h) = d.
Proof. apply deref_middle. Qed.

Lemma setitem_new (h : list dict) (d : dict) (k v : pystr) :
  setitem (h ++ [d]) (length h) k v = h ++ [<[k := v]> d].
Proof.
  unfold setitem.
  replace (length h) with (length h + 0)%nat by lia.
  by rewrite alter_app_r.
Qed.

(** The redaction loop only touches the fresh copy, and leaves there
    what [mask] computes. *)
Lemma mask_loop_spec (h : list dict) (d : dict) :
  mask_loop (length h) (h ++ [d]) = h ++ [mask d].
Proof.
  unfold mask_loop, mask. generalize COLS_SENSITIVE as cols. intros cols.
  revert d. induction cols as [|col cols IH]; intros d; [done|].
  cbn [foldl]. unfold mask_step at 2, mask_field at 2.
  rewrite deref_new. destruct (d !! col); [|apply IH].
  rewrite setitem_new. apply IH.
Qed.

(** One turn of the loop, by the disposition of the row it visits. *)
Lemma loop_body_classify (st : state) (row : nat) :
  loop_body st row =
    let d := deref (heap st) row in
    match classify d with
    | None => st
    | Some Public =>
        State (heap st) (public_rows st ++ [row]) (pending_rows st)
              (excluded_stats st)
    | Some Excluded =>
        State (heap st) (public_rows st) (pending_rows st)
              (count_excluded (type_of d) (excluded_stats st))
    | Some Pending =>
        State (heap st ++ [mask d]) (public_rows st)
              (pending_rows st ++ [length (heap st)]) (excluded_stats st)
    end.
Proof.
  unfold loop_body, classify, disposition_of,
    consent_of, type_of.
  cbv zeta. destruct (nameless _); [done|].
  destruct (startswith _ (py "oui")); [done|].
  destruct (startswith _ (py "non")); [done|].
  by rewrite mask_loop_spec.
Qed.

(** The loop over the rows not yet visited. *)
Lemma loop_invariant (todo visited ex : list dict) (st : state) :
  heap st = (visited ++ todo) ++ ex ->
  foldl loop_body st (seq (length visited) (length todo)) =
    State ((visited ++ todo) ++ ex ++ List.map mask (List.filter is_pending todo))
          (public_rows st ++ pub_locs (length visited) todo)
          (pending_rows st
             ++ seq (length (visited ++ todo) + length ex)
                    (length (List.filter is_pending todo)))
          (tally_of (excluded_stats st) todo).
Proof.
  revert visited ex st.
  induction todo as [|d todo IH]; intros visited ex st Hh.
  - destruct st; cbn [heap public_rows pending_rows excluded_stats] in *.
    cbn. rewrite !app_nil_r in *. by subst.
  - cbn [length seq foldl].
    assert (Hd : deref (heap st) (length visited) = d).
    { rewrite Hh, <- app_assoc. apply deref_middle. }
    assert (Hv : visited ++ d :: todo = (visited ++ [d]) ++ todo)
      by (by rewrite <- app_assoc).
    assert (Hl : S (length visited) = length (visited ++ [d]))
      by (rewrite length_app; cbn; lia).
    rewrite loop_body_classify. cbv zeta. rewrite Hd.
    cbn [List.filter pub_locs tally_of foldl].
    pose proof (eq_refl : is_public d = _) as Hpub.
    pose proof (eq_refl : is_excluded d = _) as Hexc.
    pose proof (eq_refl : is_pending d = _) as Hpen.
    unfold is_public in Hpub at 2. unfold is_excluded in Hexc at 2.
    unfold is_pending in Hpen at 2.
    rewrite Hv, Hl.
    destruct (classify d) as [[]|]; rewrite Hpub, Hexc, Hpen.
    + rewrite (IH (visited ++ [d]) ex); [|by rewrite <- Hv].
      cbn [heap public_rows pending_rows excluded_stats].
      f_equal. by rewrite <- app_assoc.
    + by rewrite (IH (visited ++ [d]) ex); [|by rewrite <- Hv].
    + rewrite (IH (visited ++ [d]) (ex ++ [mask d]));
        [|cbn [heap]; by rewrite Hh, Hv, <- app_assoc].
      cbn [heap public_rows pending_rows excluded_stats List.map length].
      f_equal.
      * by rewrite <- !app_assoc.
      * rewrite Hh, <- Hv, <- !app_assoc. f_equal.
        rewrite !length_app. cbn [length seq].
        replace (length visited + S (length todo) + (length ex + 1))%nat
          with (S (length visited + S (length todo) + length ex)) by lia.
        cbn [app]. f_equal. lia.
    + by rewrite (IH (visited ++ [d]) ex); [|by rewrite <- Hv].
Qed.

(** The references kept for the public rows point at those rows. *)
Lemma pub_locs_deref (ds visited ex : list dict) :
  List.map (deref ((visited ++ ds) ++ ex)) (pub_locs (length visited) ds)
  = List.filter is_public ds.
Proof.
  revert visited. induction ds as [|d ds IH]; intros visited; [reflexivity|].
  cbn [pub_locs List.filter].
  assert (Hv : visited ++ d :: ds = (visited ++ [d]) ++ ds)
    by (by rewrite <- app_assoc).
  assert (Hl : S (length visited) = length (visited ++ [d]))
    by (rewrite length_app; cbn; lia).
  destruct (is_public d).
  - cbn [List.map]. f_equal.
    + rewrite <- app_assoc. apply deref_middle.
    + rewrite Hv, Hl. apply IH.
  - rewrite Hv, Hl. apply IH.
Qed.

Lemma pub_locs_bound (ds : list dict) (i l : nat) :
  l ∈ pub_locs i ds -> (i <= l < i + length ds)%nat.
Proof.
  revert i. induction ds as [|d ds IH]; intros i; cbn [pub_locs].
  - intros H. by apply elem_of_nil in H.
  - destruct (is_public d).
    + intros [->|H]%elem_of_cons; [cbn; lia|].
      apply IH in H. cbn. lia.
    + intros H. apply IH in H. cbn. lia.
Qed.

(** The references kept for the masked copies point at those copies. *)
Lemma seq_deref (h ms ex : list dict) :
  List.map (deref (h ++ ms ++ ex)) (seq (length h) (length ms)) = ms.
Proof.
  revert h. induction ms as [|m ms IH]; intros h; [done|].
  cbn [length seq List.map]. f_equal.
  - apply deref_middle.
  - replace (h ++ (m :: ms) ++ ex) with ((h ++ [m]) ++ ms ++ ex)
      by (by rewrite <- app_assoc).
    replace (S (length h)) with (length (h ++ [m]))
      by (rewrite length_app; cbn; lia).
    apply IH.
Qed.

(** The classification pass, in the words of the row-level view. *)
Lemma classification_pass_spec (rows : list dict) :
  classification_pass rows =
    State (rows ++ List.map mask (List.filter is_pending rows))
          (pub_locs 0 rows)
          (seq (length rows) (length (List.filter is_pending rows)))
          (tally_of (Counters 0 0 0 0) rows).
Proof.
  unfold classification_pass.
  pose proof (loop_invariant rows [] [] (initial rows)) as H.
  cbn [initial heap public_rows pending_rows excluded_stats app length] in H.
  rewrite app_nil_r, Nat.add_0_r in H. by apply H.
Qed.

(** The column check passes exactly when the three critical columns
    are in the header list. *)
Lemma first_missing_None (headers : list pystr) :
  first_missing [COL_PRENOM; COL_NOM; COL_CONSENT] headers = None
  <-> COL_PRENOM ∈ headers /\ COL_NOM ∈ headers /\ COL_CONSENT ∈ headers.
Proof.
  cbn [first_missing]. unfold in_headers.
  destruct (decide (COL_PRENOM ∈ headers)) as [H1|H1];
    [rewrite (bool_decide_eq_true_2 _ H1)|rewrite (bool_decide_eq_false_2 _ H1)];
    [|split; [discriminate|tauto]].
  destruct (decide (COL_NOM ∈ headers)) as [H2|H2];
    [rewrite (bool_decide_eq_true_2 _ H2)|rewrite (bool_decide_eq_false_2 _ H2)];
    [|split; [discriminate|tauto]].
  destruct (decide (COL_CONSENT ∈ headers)) as [H3|H3];
    [rewrite (bool_decide_eq_true_2 _ H3)|rewrite (bool_decide_eq_false_2 _ H3)];
    [|split; [discriminate|tauto]].
  tauto.
Qed.

Lemma prepare_public_csv_spec (headers : list pystr) (rows : list dict) :
  first_missing [COL_PRENOM; COL_NOM; COL_CONSENT] headers = None ->
  prepare_public_csv headers rows =
    let pending := List.filter is_pending rows in
    let t := tally_of (Counters 0 0 0 0) rows in
    Done (Export
            (rows ++ List.map mask pending ++ [make_stats_row headers t])
            (pub_locs 0 rows ++ seq (length rows) (length pending)
               ++ [(length rows + length pending)%nat])
            t
            (lines_of headers rows)).
Proof.
  intros Hcols. unfold prepare_public_csv. rewrite Hcols.
  rewrite classification_pass_spec. cbn [heap public_rows pending_rows excluded_stats].
  cbv zeta. f_equal. f_equal.
  - by rewrite <- app_assoc.
  - by rewrite length_app, length_map.
  - unfold lines_of. f_equal.
    set (h := (rows ++ _) ++ [_]).
    rewrite !map_app.
    rewrite <- !(map_map (deref h) (dict_to_list headers)).
    rewrite <- (map_map mask (dict_to_list headers)).
    assert (H1 : List.map (deref h) (pub_locs 0 rows)
                 = List.filter is_public rows).
    { subst h. rewrite <- (app_assoc rows). apply (pub_locs_deref rows []). }
    assert (H2 : List.map (deref h)
                   (seq (length rows) (length (List.filter is_pending rows)))
                 = List.map mask (List.filter is_pending rows)).
    { subst h. rewrite <- (app_assoc rows).
      rewrite <- (length_map mask (List.filter is_pending rows)).
      apply seq_deref. }
    rewrite H1, H2. cbn [List.map]. subst h. by rewrite deref_new.
Qed.

(** ** The field redactor on one record *)

Lemma mask_fields_lookup (cols : list pystr) (d : dict) (k : pystr) :
  foldl mask_field d cols !! k =
    if bool_decide (k ∈ cols) then (fun _ => get PLACEHOLDER k) <$> d !! k
    else d !! k.
Proof.
  revert d. induction cols as [|c cols IH]; intros d.
  - cbn [foldl]. by rewrite bool_decide_eq_false_2 by apply not_elem_of_nil.
  - cbn [foldl]. rewrite IH. unfold mask_field.
    destruct (decide (k = c)) as [->|Hne].
    + rewrite (bool_decide_eq_true_2 (c ∈ c :: cols))
        by apply list_elem_of_here.
      destruct (d !! c) eqn:Hc.
      * rewrite lookup_insert_eq. by destruct (bool_decide (c ∈ cols)).
      * rewrite Hc. by destruct (bool_decide (c ∈ cols)).
    + assert (Hl : match d !! c with
                   | Some _ => <[c := get PLACEHOLDER c]> d
                   | None => d
                   end !! k = d !! k).
      { destruct (d !! c); [by rewrite lookup_insert_ne|done]. }
      rewrite Hl. apply (f_equal (fun b : bool => if b then _ else _)).
      apply bool_decide_ext. rewrite elem_of_cons. tauto.
Qed.

Lemma mask_lookup (d : dict) (k : pystr) :
  mask d !! k =
    if bool_decide (k ∈ COLS_SENSITIVE)
    then (fun _ => get PLACEHOLDER k) <$> d !! k
    else d !! k.
Proof. apply mask_fields_lookup. Qed.

Lemma mask_dom (d : dict) : dom (mask d) = dom d.
Proof.
  apply set_eq. intros k. rewrite !elem_of_dom, mask_lookup.
  case_bool_decide; [by rewrite fmap_is_Some|done].
Qed.

Lemma get_mask_other (d : dict) (k : pystr) :
  k ∉ COLS_SENSITIVE -> get (mask d) k = get d k.
Proof.
  intros Hk. unfold get. by rewrite mask_lookup, bool_decide_eq_false_2.
Qed.

Lemma snoc_neq {A} (l : list A) (x : A) : l ++ [x] <> l.
Proof.
  intros H. apply (f_equal length) in H. rewrite length_app in H. cbn in H. lia.
Qed.

(** ** The writer *)

Lemma dict_to_list_length (headers : list pystr) (d : dict) :
  length (dict_to_list headers d) = length headers.
Proof. apply length_map. Qed.

Lemma dict_to_list_lookup (headers : list pystr) (d : dict) (j : nat) (h : pystr) :
  headers !! j = Some h -> dict_to_list headers d !! j = Some (get d h).
Proof.
  intros Hj. unfold dict_to_list.
  change (List.map (get d) headers) with (get d <$> headers).
  by rewrite list_lookup_fmap, Hj.
Qed.

(** Two rows written alike agree on every column of the header list. *)
Lemma dict_to_list_inj_at (headers : list pystr) (d1 d2 : dict) (h : pystr) :
  h ∈ headers ->
  dict_to_list headers d1 = dict_to_list headers d2 -> get d1 h = get d2 h.
Proof.
  intros [j Hj]%list_elem_of_lookup_1 Heq.
  apply (dict_to_list_lookup _ d1) in Hj as H1.
  apply (dict_to_list_lookup _ d2) in Hj as H2.
  rewrite Heq in H1. congruence.
Qed.

Lemma dict_to_list_header_at (headers : list pystr) (d : dict) (h : pystr) :
  h ∈ headers -> dict_to_list headers d = headers -> get d h = h.
Proof.
  intros [j Hj]%list_elem_of_lookup_1 Heq.
  apply (dict_to_list_lookup _ d) in Hj as H1.
  rewrite Heq in H1. congruence.
Qed.

(** A key outside the header list leaves no trace in the written row. *)
Lemma dict_to_list_extra_key (headers : list pystr) (d : dict) (k v : pystr) :
  k ∉ headers -> dict_to_list headers (<[k := v]> d) = dict_to_list headers d.
Proof.
  intros Hk. unfold dict_to_list. apply map_ext_in. intros h Hh.
  unfold get. rewrite lookup_insert_ne; [done|].
  intros ->. apply Hk. by apply list_elem_of_In.
Qed.

(** ** The statistics row *)

Lemma blank_row_get (headers : list pystr) (k : pystr) :
  get (blank_row headers) k = [].
Proof.
  unfold blank_row.
  assert (H : forall d : dict, get d k = [] ->
            get (foldl (fun (d : dict) h => <[h := []]> d) d headers) k = []).
  { induction headers as [|h headers IH]; intros d Hd; [done|].
    cbn [foldl]. apply IH. unfold get.
    destruct (decide (h = k)) as [->|Hne].
    - by rewrite lookup_insert_eq.
    - by rewrite lookup_insert_ne. }
  by apply H.
Qed.

Lemma critical_columns_distinct :
  COL_PRENOM <> COL_NOM /\ COL_PRENOM <> COL_EMAIL /\ COL_PRENOM <> COL_CONSENT
  /\ COL_NOM <> COL_EMAIL /\ COL_NOM <> COL_CONSENT /\ COL_EMAIL <> COL_CONSENT.
Proof. repeat split; intros H; vm_compute in H; discriminate H. Qed.

(** The cells of the statistics row, column by column. *)
Lemma stats_row_get (headers : list pystr) (c : counters) (h : pystr) :
  get (make_stats_row headers c) h =
    if decide (h = COL_PRENOM) then STATS_ROW_MARKER
    else if decide (h = COL_EMAIL) then packed c
    else if decide (h = COL_CONSENT) then py "stats"
    else [].
Proof.
  destruct critical_columns_distinct as (H1 & H2 & H3 & H4 & H5 & H6).
  unfold make_stats_row, get.
  destruct (decide (h = COL_PRENOM)) as [->|Hp].
  { by rewrite !lookup_insert_ne, lookup_insert_eq by congruence. }
  destruct (decide (h = COL_EMAIL)) as [->|He].
  { by rewrite lookup_insert_ne, lookup_insert_eq by congruence. }
  destruct (decide (h = COL_CONSENT)) as [->|Hc].
  { by rewrite lookup_insert_eq. }
  rewrite lookup_insert_ne, lookup_insert_ne by congruence.
  destruct (decide (h = COL_NOM)) as [->|Hn].
  { by rewrite lookup_insert_eq. }
  rewrite lookup_insert_ne, lookup_insert_ne by congruence.
  apply blank_row_get.
Qed.

(** ** The tally *)

Lemma count_excluded_comm (t1 t2 : pystr) (c : counters) :
  count_excluded t1 (count_excluded t2 c)
  = count_excluded t2 (count_excluded t1 c).
Proof.
  unfold count_excluded. cbv zeta.
  destruct (contains t1 (py "régulier") || contains t1 (py "regulier"));
    destruct (contains t1 (py "étudiant") || contains t1 (py "etudiant"));
    destruct (contains t1 (py "partenaire"));
    destruct (contains t2 (py "régulier") || contains t2 (py "regulier"));
    destruct (contains t2 (py "étudiant") || contains t2 (py "etudiant"));
    destruct (contains t2 (py "partenaire"));
    cbn [total regulier etudiant partenaire]; f_equal; lia.
Qed.

Lemma tally_of_count_excluded (t : pystr) (c : counters) (rows : list dict) :
  tally_of (count_excluded t c) rows = count_excluded t (tally_of c rows).
Proof.
  revert c. induction rows as [|d rows IH]; intros c; [done|].
  unfold tally_of in *. cbn [foldl].
  destruct (is_excluded d); [|apply IH].
  rewrite count_excluded_comm. apply IH.
Qed.

Lemma tally_of_app (c : counters) (l1 l2 : list dict) :
  tally_of c (l1 ++ l2) = tally_of (tally_of c l1) l2.
Proof. unfold tally_of. apply foldl_app. Qed.

(** The tally with one more row in the middle of the input. *)
Lemma tally_of_insert (c : counters) (l1 l2 : list dict) (d : dict) :
  tally_of c (l1 ++ d :: l2) =
    if is_excluded d then count_excluded (type_of d) (tally_of c (l1 ++ l2))
    else tally_of c (l1 ++ l2).
Proof.
  rewrite !tally_of_app. unfold tally_of at 1. cbn [foldl].
  fold (tally_of (tally_of c l1) l2).
  destruct (is_excluded d); [|done].
  apply tally_of_count_excluded.
Qed.

(** ** Consent prefixes *)

Lemma oui_non_exclusive (consent : pystr) :
  startswith consent (py "non") = true -> startswith consent (py "oui") = false.
Proof.
  change (py "non") with [110; 111; 110]. change (py "oui") with [111; 117; 105].
  destruct consent as [|a consent]; [done|]. cbn [startswith].
  destruct (N.eqb_spec 110 a) as [<-|]; [done|]. by rewrite andb_false_l.
Qed.

Lemma is_public_inv (d : dict) :
  is_public d = true ->
  nameless d = false /\ startswith (consent_of d) (py "oui") = true.
Proof.
  unfold is_public, classify, disposition_of.
  destruct (nameless d); [done|].
  destruct (startswith _ (py "oui")); [done|].
  by destruct (startswith _ (py "non")).
Qed.

Lemma is_excluded_iff (d : dict) :
  is_excluded d = true <->
  nameless d = false /\ startswith (consent_of d) (py "non") = true.
Proof.
  unfold is_excluded, classify, disposition_of.
  destruct (nameless d); [by split; [|intros []]|].
  destruct (startswith _ (py "non")) eqn:Hnon.
  - rewrite (oui_non_exclusive _ Hnon). done.
  - destruct (startswith _ (py "oui")); by split; [|intros []].
Qed.

Lemma is_pending_inv (d : dict) :
  is_pending d = true ->
  nameless d = false /\ startswith (consent_of d) (py "oui") = false
  /\ startswith (consent_of d) (py "non") = false.
Proof.
  unfold is_pending, classify, disposition_of.
  destruct (nameless d); [done|].
  destruct (startswith _ (py "oui")); [done|].
  by destruct (startswith _ (py "non")).
Qed.

(** ** Rows that are not written *)

Lemma pub_locs_elem (ds : list dict) (i l : nat) :
  l ∈ pub_locs i ds ->
  exists d, ds !! (l - i)%nat = Some d /\ is_public d = true.
Proof.
  revert i. induction ds as [|d ds IH]; intros i; cbn [pub_locs].
  - intros H. by apply elem_of_nil in H.
  - destruct (is_public d) eqn:Hd.
    + intros [->|H]%elem_of_cons.
      * exists d. by rewrite Nat.sub_diag.
      * pose proof (pub_locs_bound _ _ _ H) as Hb.
        destruct (IH _ H) as (d' & Hl & Hd'). exists d'. split; [|done].
        replace (l - i)%nat with (S (l - S i)) by lia. done.
    + intros H. pose proof (pub_locs_bound _ _ _ H) as Hb.
      destruct (IH _ H) as (d' & Hl & Hd'). exists d'. split; [|done].
      replace (l - i)%nat with (S (l - S i)) by lia. done.
Qed.

(** A row that is neither public nor pending is referred to by no
    entry of [all_public]. *)
Lemma unlisted_row (l1 l2 : list dict) (d : dict) (n : nat) :
  is_public d = false ->
  length l1 ∉ pub_locs 0 (l1 ++ d :: l2)
               ++ seq (length (l1 ++ d :: l2)) n
               ++ [(length (l1 ++ d :: l2) + n)%nat].
Proof.
  intros Hd. rewrite length_app. cbn [length].
  intros [H|[H|H]%elem_of_app]%elem_of_app.
  - apply pub_locs_elem in H as (d' & Hl & Hd').
    rewrite Nat.sub_0_r, list_lookup_middle in Hl by done. congruence.
  - apply elem_of_seq in H. lia.
  - apply list_elem_of_singleton in H. lia.
Qed.

Lemma filter_insert {A} (f : A -> bool) (l1 l2 : list A) (x : A) :
  f x = false -> List.filter f (l1 ++ x :: l2) = List.filter f (l1 ++ l2).
Proof. intros Hx. rewrite !List.filter_app. cbn [List.filter]. by rewrite Hx. Qed.

Lemma nameless_get (d1 d2 : dict) :
  get d1 COL_PRENOM = get d2 COL_PRENOM -> get d1 COL_NOM = get d2 COL_NOM ->
  nameless d1 = nameless d2.
Proof. intros H1 H2. unfold nameless. by rewrite H1, H2. Qed.

Lemma sensitive_columns_spare :
  (COL_PRENOM ∉ COLS_SENSITIVE) /\ (COL_NOM ∉ COLS_SENSITIVE)
  /\ (COL_CONSENT ∉ COLS_SENSITIVE) /\ (COL_TYPE ∉ COLS_SENSITIVE).
Proof.
  repeat split; intros H; apply list_elem_of_In in H;
    vm_compute in H; intuition discriminate.
Qed.

(** The shape of the rows written: a line of [lines_of] is the header
    row, a public row, a masked pending row or the statistics row. *)
Lemma lines_of_elem (headers : list pystr) (rows : list dict)
      (line : list pystr) :
  line ∈ lines_of headers rows ->
  line = headers
  \/ (exists d, is_public d = true /\ line = dict_to_list headers d)
  \/ (exists d, is_pending d = true /\ line = dict_to_list headers (mask d))
  \/ (exists c, line = dict_to_list headers (make_stats_row headers c)).
Proof.
  unfold lines_of. intros [->|H]%elem_of_cons; [by left|right].
  apply list_elem_of_In in H.
  apply in_app_or in H as [H|H].
  - left. apply in_map_iff in H as (d & <- & Hd).
    apply filter_In in Hd as [_ Hd]. by exists d.
  - right. apply in_app_or in H as [H|H].
    + left. apply in_map_iff in H as (d & <- & Hd).
      apply filter_In in Hd as [_ Hd]. by exists d.
    + right. destruct H as [<-|[]]. by eexists.
Qed.

(** The row of a member who refused is equal to no row written. *)
Lemma excluded_not_written (headers : list pystr) (rows : list dict) (d : dict) :
  COL_CONSENT ∈ headers ->
  startswith (consent_of d) (py "non") = true ->
  dict_to_list headers d ∉ lines_of headers rows.
Proof.
  intros Hc Hnon Hin.
  destruct sensitive_columns_spare as (_ & _ & Hsc & _).
  apply lines_of_elem in Hin as [H|[(x & Hx & H)|[(x & Hx & H)|(c & H)]]].
  - apply (dict_to_list_header_at _ _ _ Hc) in H.
    unfold consent_of in Hnon. rewrite H in Hnon.
    vm_compute in Hnon. discriminate Hnon.
  - apply (dict_to_list_inj_at _ _ _ _ Hc) in H.
    apply is_public_inv in Hx as [_ Hx].
    apply oui_non_exclusive in Hnon. unfold consent_of in *. congruence.
  - apply (dict_to_list_inj_at _ _ _ _ Hc) in H.
    rewrite get_mask_other in H by done.
    apply is_pending_inv in Hx as (_ & _ & Hx).
    unfold consent_of in *. congruence.
  - apply (dict_to_list_inj_at _ _ _ _ Hc) in H.
    rewrite stats_row_get in H.
    unfold consent_of in Hnon. rewrite H in Hnon.
    vm_compute in Hnon. discriminate Hnon.
Qed.

(** The row without a name is equal to no row written. *)
Lemma nameless_not_written (headers : list pystr) (rows : list dict) (d : dict) :
  COL_PRENOM ∈ headers -> COL_NOM ∈ headers ->
  nameless d = true ->
  dict_to_list headers d ∉ lines_of headers rows.
Proof.
  intros Hp Hn Hd Hin.
  destruct sensitive_columns_spare as (Hsp & Hsn & _ & _).
  apply lines_of_elem in Hin as [H|[(x & Hx & H)|[(x & Hx & H)|(c & H)]]].
  - apply (dict_to_list_header_at _ _ _ Hp) in H.
    unfold nameless in Hd. rewrite H in Hd.
    vm_compute in Hd. discriminate Hd.
  - apply is_public_inv in Hx as [Hx _].
    rewrite (nameless_get d x) in Hd; [congruence| |];
      by apply (dict_to_list_inj_at headers).
  - apply is_pending_inv in Hx as [Hx _].
    rewrite (nameless_get d x) in Hd; [congruence| |].
    + rewrite <- (get_mask_other x) by done.
      by apply (dict_to_list_inj_at headers).
    + rewrite <- (get_mask_other x) by done.
      by apply (dict_to_list_inj_at headers).
  - apply (dict_to_list_inj_at _ _ _ _ Hp) in H.
    rewrite stats_row_get in H.
    unfold nameless in Hd. rewrite H in Hd.
    vm_compute in Hd. discriminate Hd.
Qed.

(** ** The row of a pending member *)

Lemma filter_middle {A} (f : A -> bool) (l1 l2 : list A) (x : A) :
  f x = true ->
  List.filter f (l1 ++ x :: l2) = List.filter f l1 ++ x :: List.filter f l2.
Proof. intros Hx. rewrite List.filter_app. cbn [List.filter]. by rewrite Hx. Qed.

(** Where the masked copy of a pending row is stored, referred to and
    written. *)
Lemma pending_row_written (headers : list pystr) (l1 l2 : list dict) (d : dict) :
  first_missing [COL_PRENOM; COL_NOM; COL_CONSENT] headers = None ->
  is_pending d = true ->
  exists e,
    let rows := l1 ++ d :: l2 in
    let masked := (length rows + length (List.filter is_pending l1))%nat in
    let i := (1 + length (List.filter is_public rows)
              + length (List.filter is_pending l1))%nat in
    prepare_public_csv headers rows = Done e
    /\ final_heap e !! length l1 = Some d
    /\ final_heap e !! masked = Some (mask d)
    /\ masked ∈ all_public e
    /\ written e !! i = Some (dict_to_list headers (mask d)).
Proof.
  intros Hcols Hd.
  pose proof (prepare_public_csv_spec headers (l1 ++ d :: l2) Hcols) as Hspec.
  cbv zeta in Hspec. eexists. cbv zeta. split; [exact Hspec|].
  cbn [final_heap all_public written].
  rewrite (filter_middle is_pending) by done.
  split; [|split; [|split]].
  - rewrite <- app_assoc. apply list_lookup_middle. done.
  - rewrite lookup_app_r by lia. rewrite Nat.add_sub'.
    rewrite map_app. cbn [List.map]. rewrite <- app_assoc.
    apply list_lookup_middle. by rewrite length_map.
  - apply elem_of_app. right. apply elem_of_app. left.
    apply elem_of_seq. rewrite (length_app (List.filter _ _)). cbn [length]. lia.
  - unfold lines_of. rewrite (filter_middle is_pending) by done.
    rewrite (map_app _ (List.filter is_pending l1)). cbn [List.map].
    set (A := List.map (dict_to_list headers) _).
    set (B1 := List.map _ (List.filter is_pending l1)).
    set (B2 := List.map _ (List.filter is_pending l2)).
    set (s := [_]).
    replace (headers :: A ++ (B1 ++ dict_to_list headers (mask d) :: B2) ++ s)
      with ((headers :: A ++ B1) ++ dict_to_list headers (mask d) :: B2 ++ s)
      by (cbn [app]; by rewrite <- !app_assoc).
    apply list_lookup_middle. subst A B1. cbn [length].
    by rewrite length_app, !length_map.
Qed.

Lemma is_pending_intro (d : dict) :
  nameless d = false ->
  startswith (consent_of d) (py "oui") = false ->
  startswith (consent_of d) (py "non") = false ->
  is_pending d = true.
Proof.
  intros Hn Ho Hnn. unfold is_pending, classify, disposition_of.
  by rewrite Hn, Ho, Hnn.
Qed.

Lemma placeholder_values :
  get PLACEHOLDER COL_EMAIL = py "membre@rsn-placeholder.ca"
  /\ get PLACEHOLDER COL_INSTITUTION = py "Institution non divulguée"
  /\ get PLACEHOLDER COL_STATUT = py "Non divulgué"
  /\ (forall col, col ∈ COLS_SENSITIVE ->
        col <> COL_EMAIL -> col <> COL_INSTITUTION -> col <> COL_STATUT ->
        get PLACEHOLDER col = []).
Proof.
  split; [by vm_compute|]. split; [by vm_compute|]. split; [by vm_compute|].
  intros col Hcol He Hi Hs. unfold get, PLACEHOLDER.
  by rewrite !lookup_insert_ne, lookup_empty by congruence.
Qed.

(** A record with one sensitive key only: masking replaces that
    field. *)
Lemma mask_single (d : dict) (k : pystr) :
  k ∈ COLS_SENSITIVE ->
  is_Some (d !! k) ->
  forallb (fun c => bool_decide (c = k) || bool_decide (d !! c = None))
          COLS_SENSITIVE = true ->
  mask d = <[k := get PLACEHOLDER k]> d.
Proof.
  intros Hk [v Hv] Hothers. apply map_eq. intros c.
  rewrite mask_lookup.
  destruct (decide (c = k)) as [->|Hne].
  - rewrite bool_decide_eq_true_2 by exact Hk.
    rewrite Hv, lookup_insert_eq. exact eq_refl.
  - rewrite lookup_insert_ne by congruence.
    case_bool_decide as Hc; [|exact eq_refl].
    apply list_elem_of_In in Hc.
    rewrite forallb_forall in Hothers. apply Hothers in Hc.
    apply orb_true_iff in Hc as [Hc|Hc].
    + apply bool_decide_eq_true in Hc. contradiction.
    + apply bool_decide_eq_true in Hc. rewrite Hc. exact eq_refl.
Qed.

(** ** Record Classifier *)

(** C2. Every row with a name gets exactly one of the three
    dispositions, by the first rule that matches its trimmed,
    lower-cased consent value: "oui" first (the reference of the row
    joins [public_rows]), then "non" (the row is only counted), then
    anything else, the empty and the missing value included (a masked
    copy joins [pending_rows]). The three effects exclude one another,
    and the turn of the loop is a total function of the row. *)
Theorem classifier_first_match_wins (st : state) (row : nat) :
  let d := deref (heap st) row in
  let consent := lower (strip (get d COL_CONSENT)) in
  let st' := loop_body st row in
  nameless d = false ->
  st' = match disposition_of consent with
        | Public =>
            State (heap st) (public_rows st ++ [row]) (pending_rows st)
                  (excluded_stats st)
        | Excluded =>
            State (heap st) (public_rows st) (pending_rows st)
                  (count_excluded (lower (strip (get d COL_TYPE)))
                                  (excluded_stats st))
        | Pending =>
            State (heap st ++ [mask d]) (public_rows st)
                  (pending_rows st ++ [length (heap st)]) (excluded_stats st)
        end
  /\ (disposition_of consent = Public
        <-> startswith consent (py "oui") = true)
  /\ (disposition_of consent = Excluded
        <-> startswith consent (py "oui") = false
            /\ startswith consent (py "non") = true)
  /\ (disposition_of consent = Pending
        <-> startswith consent (py "oui") = false
            /\ startswith consent (py "non") = false)
  /\ (public_rows st' = public_rows st ++ [row]
        <-> disposition_of consent = Public)
  /\ (total (excluded_stats st') = (total (excluded_stats st) + 1)%Z
        <-> disposition_of consent = Excluded)
  /\ (pending_rows st' = pending_rows st ++ [length (heap st)]
        <-> disposition_of consent = Pending)
  /\ (d !! COL_CONSENT = None \/ strip (get d COL_CONSENT) = []
        -> disposition_of consent = Pending).
Proof.
  intros d consent st' Hname.
  assert (Hst : st' = match disposition_of consent with
        | Public =>
            State (heap st) (public_rows st ++ [row]) (pending_rows st)
                  (excluded_stats st)
        | Excluded =>
            State (heap st) (public_rows st) (pending_rows st)
                  (count_excluded (lower (strip (get d COL_TYPE)))
                                  (excluded_stats st))
        | Pending =>
            State (heap st ++ [mask d]) (public_rows st)
                  (pending_rows st ++ [length (heap st)]) (excluded_stats st)
        end).
  { subst st'. rewrite loop_body_classify. cbv zeta. fold d.
    unfold classify. rewrite Hname. reflexivity. }
  split; [exact Hst|].
  assert (Htot : forall t c, total (count_excluded t c) = (total c + 1)%Z).
  { intros t c. unfold count_excluded. cbv zeta.
    repeat (destruct (_ || _) || destruct (contains _ _)); reflexivity. }
  assert (Hmissing : d !! COL_CONSENT = None \/ strip (get d COL_CONSENT) = []
                     -> consent = []).
  { intros [Hnone|Hempty]; subst consent.
    - unfold get. rewrite Hnone. reflexivity.
    - rewrite Hempty. reflexivity. }
  unfold disposition_of in *.
  destruct (startswith consent (py "oui")) eqn:Houi;
    [|destruct (startswith consent (py "non")) eqn:Hnon];
    rewrite Hst; cbn [public_rows pending_rows excluded_stats];
    rewrite ?Htot;
    (repeat split; try done; try tauto; try lia;
     try (by intros H; apply snoc_neq in H);
     try (by intros H; symmetry in H; apply snoc_neq in H);
     try (intros H; apply Hmissing in H; rewrite H in *; done)).
Qed.

(** ** Column check *)

(** C8. A header list that lacks the first-name, the last-name or the
    consent column makes the run exit with status 1 whatever the rows
    are: nothing is classified or counted, and the output file is left
    as it was. A header list with the three columns never takes that
    branch. *)
Theorem missing_column_is_fatal (headers : list pystr) (rows : list dict) :
  (~ (COL_PRENOM ∈ headers /\ COL_NOM ∈ headers /\ COL_CONSENT ∈ headers)
     <-> prepare_public_csv headers rows = SysExit 1)
  /\ (COL_PRENOM ∈ headers /\ COL_NOM ∈ headers /\ COL_CONSENT ∈ headers
       <-> exists e, prepare_public_csv headers rows = Done e)
  /\ (forall disk,
        prepare_public_csv headers rows = SysExit 1 ->
        output_after disk (prepare_public_csv headers rows) = disk)
  /\ (forall rows',
        prepare_public_csv headers rows = SysExit 1 ->
        prepare_public_csv headers rows' = SysExit 1).
Proof.
  pose proof (first_missing_None headers) as Hcols.
  unfold prepare_public_csv.
  destruct (first_missing _ headers) as [col|].
  - split; [|split; [|split]].
    + split; [done|]. intros _ H. by apply Hcols in H.
    + split; [intros H; by apply Hcols in H|]. by intros [e He].
    + done.
    + done.
  - split; [|split; [|split]].
    + split; [|done]. intros H. exfalso. apply H. by apply Hcols.
    + split; [intros _; by eexists|]. intros _. by apply Hcols.
    + done.
    + done.
Qed.

(** ** Export Assembler *)

(** C5. The rows handed to the writer are the header row, then the
    public rows as they were read and in input order, then the masked
    pending rows in input order, then the statistics row. Every row is
    written against the whole header list: one cell per header, the
    value of the record for that header or the empty string when the
    record has none, and a key of the record that is no header is
    dropped without an error. *)
Theorem export_assembly (headers : list pystr) (rows : list dict) :
  COL_PRENOM ∈ headers -> COL_NOM ∈ headers -> COL_CONSENT ∈ headers ->
  exists e,
    prepare_public_csv headers rows = Done e
    /\ written e =
         headers
           :: List.map (dict_to_list headers) (List.filter is_public rows)
           ++ List.map (fun d => dict_to_list headers (mask d))
                       (List.filter is_pending rows)
           ++ [dict_to_list headers (make_stats_row headers (tally e))]
    /\ written e =
         headers
           :: List.map (fun l => dict_to_list headers (deref (final_heap e) l))
                       (all_public e)
    /\ (forall d : dict,
          (is_public d = true
           <-> nameless d = false
               /\ startswith (lower (strip (get d COL_CONSENT))) (py "oui")
                  = true)
          /\ (is_pending d = true
              <-> nameless d = false
                  /\ startswith (lower (strip (get d COL_CONSENT))) (py "oui")
                     = false
                  /\ startswith (lower (strip (get d COL_CONSENT))) (py "non")
                     = false))
    /\ (forall d : dict,
          length (dict_to_list headers d) = length headers
          /\ (forall j h, headers !! j = Some h ->
                dict_to_list headers d !! j = Some (default [] (d !! h)))
          /\ (forall j h, headers !! j = Some h -> d !! h = None ->
                dict_to_list headers d !! j = Some [])
          /\ (forall k v, k ∉ headers ->
                dict_to_list headers (<[k := v]> d) = dict_to_list headers d)).
Proof.
  intros Hp Hn Hc.
  assert (Hcols : first_missing [COL_PRENOM; COL_NOM; COL_CONSENT] headers = None)
    by (apply first_missing_None; auto).
  pose proof (prepare_public_csv_spec headers rows Hcols) as Hspec.
  unfold prepare_public_csv in *. rewrite Hcols in *. cbv zeta in *.
  injection Hspec as Hh Hrefs Ht Hw.
  eexists. split; [reflexivity|]. cbn [written tally final_heap all_public].
  split; [|split; [|split]].
  - rewrite Hw, Ht. reflexivity.
  - reflexivity.
  - intros d. split.
    + split; [apply is_public_inv|]. intros [Hd Ho].
      unfold is_public, classify, disposition_of, consent_of.
      by rewrite Hd, Ho.
    + split; [apply is_pending_inv|]. intros (Hd & Ho & Hnn).
      by apply is_pending_intro.
  - intros d. split; [apply dict_to_list_length|]. split; [|split].
    + intros j h Hj. by apply dict_to_list_lookup.
    + intros j h Hj Hnone. rewrite (dict_to_list_lookup _ _ _ _ Hj).
      unfold get. by rewrite Hnone.
    + intros k v Hk. by apply dict_to_list_extra_key.
Qed.

(** ** Statistics Aggregator *)

(** C6. A run writes one statistics row and writes it last. The row is
    an object of its own, made after the loop from the counters the
    loop ended with; the loop never visits it, so it is neither
    classified nor masked. It has a cell for every header: the marker
    under the first-name column, the four counters joined by commas
    under the primary e-mail column, the tag "stats" under the consent
    column, and the empty string under every other column. *)
Theorem statistics_record_last (headers : list pystr) (rows : list dict) :
  COL_PRENOM ∈ headers -> COL_NOM ∈ headers -> COL_CONSENT ∈ headers ->
  exists e,
    let st := classification_pass rows in
    let stats_row := length (heap st) in
    let cells := dict_to_list headers (make_stats_row headers (tally e)) in
    prepare_public_csv headers rows = Done e
    /\ tally e = excluded_stats st
    /\ all_public e = public_rows st ++ pending_rows st ++ [stats_row]
    /\ (stats_row ∉ public_rows st ++ pending_rows st)
    /\ (stats_row ∉ seq 0 (length rows))
    /\ final_heap e = heap st ++ [make_stats_row headers (tally e)]
    /\ last (written e) = Some cells
    /\ length (written e)
        = (1 + length (public_rows st) + length (pending_rows st) + 1)%nat
    /\ cells =
         List.map (fun h =>
                     if decide (h = COL_PRENOM) then STATS_ROW_MARKER
                     else if decide (h = COL_EMAIL) then
                       str_of_int (total (tally e)) ++ py ","
                       ++ str_of_int (regulier (tally e)) ++ py ","
                       ++ str_of_int (etudiant (tally e)) ++ py ","
                       ++ str_of_int (partenaire (tally e))
                     else if decide (h = COL_CONSENT) then py "stats"
                     else [])
                  headers.
Proof.
  intros Hp Hn Hc.
  assert (Hcols : first_missing [COL_PRENOM; COL_NOM; COL_CONSENT] headers = None)
    by (apply first_missing_None; auto).
  unfold prepare_public_csv. rewrite Hcols. cbv zeta.
  eexists. split; [reflexivity|].
  cbn [written tally final_heap all_public].
  split; [reflexivity|]. split; [reflexivity|].
  rewrite classification_pass_spec.
  cbn [heap public_rows pending_rows excluded_stats].
  split; [|split; [|split; [reflexivity|split; [|split]]]].
  - rewrite length_app, length_map.
    intros [H|H]%elem_of_app.
    + apply pub_locs_bound in H. lia.
    + apply elem_of_seq in H. lia.
  - rewrite length_app, length_map. intros H%elem_of_seq. lia.
  - rewrite app_assoc, map_app. cbn [List.map].
    rewrite app_comm_cons, last_snoc. by rewrite deref_new.
  - cbn [length]. rewrite length_map, !length_app. cbn [length]. lia.
  - unfold dict_to_list. apply map_ext. intros h.
    apply stats_row_get.
Qed.

(** ** Refusals and blank rows *)

(** C1. A named row whose trimmed, lower-cased consent begins with
    "non" is not written: no entry of [all_public] refers to it, no row
    of the output equals it, and the rows before the statistics row are
    those of the run without it. It adds 1 to the total, and 1 to the
    first counter whose word occurs in its trimmed, lower-cased
    membership type, tried in the order regular, student, partner; a
    type with none of the three words adds to the total only. *)
Theorem refusal_counted_not_published
        (headers : list pystr) (l1 l2 : list dict) (d : dict) :
  COL_PRENOM ∈ headers -> COL_NOM ∈ headers -> COL_CONSENT ∈ headers ->
  nameless d = false ->
  startswith (lower (strip (get d COL_CONSENT))) (py "non") = true ->
  exists e e' body,
    let t := lower (strip (get d COL_TYPE)) in
    let reg := contains t (py "régulier") || contains t (py "regulier") in
    let stu := contains t (py "étudiant") || contains t (py "etudiant") in
    let par := contains t (py "partenaire") in
    prepare_public_csv headers (l1 ++ d :: l2) = Done e
    /\ prepare_public_csv headers (l1 ++ l2) = Done e'
    /\ (length l1 ∉ all_public e)
    /\ (dict_to_list headers d ∉ written e)
    /\ written e = headers :: body
                    ++ [dict_to_list headers (make_stats_row headers (tally e))]
    /\ written e' = headers :: body
                    ++ [dict_to_list headers (make_stats_row headers (tally e'))]
    /\ total (tally e) = (total (tally e') + 1)%Z
    /\ regulier (tally e)
        = (regulier (tally e') + if reg then 1 else 0)%Z
    /\ etudiant (tally e)
        = (etudiant (tally e') + if negb reg && stu then 1 else 0)%Z
    /\ partenaire (tally e)
        = (partenaire (tally e')
           + if negb reg && negb stu && par then 1 else 0)%Z.
Proof.
  intros Hp Hn Hc Hname Hnon.
  assert (Hcols : first_missing [COL_PRENOM; COL_NOM; COL_CONSENT] headers = None)
    by (apply first_missing_None; auto).
  assert (Hexc : is_excluded d = true) by (by apply is_excluded_iff).
  assert (Hpub : is_public d = false).
  { unfold is_public. unfold is_excluded in Hexc.
    by destruct (classify d) as [[]|]. }
  assert (Hpen : is_pending d = false).
  { unfold is_pending. unfold is_excluded in Hexc.
    by destruct (classify d) as [[]|]. }
  rewrite !prepare_public_csv_spec by done. cbv zeta.
  eexists. eexists.
  exists (List.map (dict_to_list headers) (List.filter is_public (l1 ++ l2))
          ++ List.map (fun d => dict_to_list headers (mask d))
                      (List.filter is_pending (l1 ++ l2))).
  split; [reflexivity|]. split; [reflexivity|].
  cbn [written tally final_heap all_public].
  split; [by apply unlisted_row|].
  split; [by apply excluded_not_written|].
  split.
  { unfold lines_of. rewrite !filter_insert by done.
    by rewrite <- (app_assoc (List.map _ _)). }
  split.
  { unfold lines_of. by rewrite <- (app_assoc (List.map _ _)). }
  rewrite tally_of_insert, Hexc. unfold type_of, count_excluded. cbv zeta.
  destruct (contains _ (py "régulier") || contains _ (py "regulier"));
    [|destruct (contains _ (py "étudiant") || contains _ (py "etudiant"));
      [|destruct (contains _ (py "partenaire"))]];
    cbn [total regulier etudiant partenaire negb andb]; repeat split; lia.
Qed.

(** C7. A row whose first name and last name are both empty once
    trimmed leaves every variable of the loop as it was, whatever its
    consent and membership type. The run writes the same file and ends
    with the same counters as the run without the row; no entry of
    [all_public] refers to the row and no row of the output equals
    it. *)
Theorem nameless_row_discarded
        (headers : list pystr) (l1 l2 : list dict) (d : dict) :
  nameless d = true ->
  (forall st row, deref (heap st) row = d -> loop_body st row = st)
  /\ (forall disk,
        output_after disk (prepare_public_csv headers (l1 ++ d :: l2))
        = output_after disk (prepare_public_csv headers (l1 ++ l2)))
  /\ (forall e,
        prepare_public_csv headers (l1 ++ d :: l2) = Done e ->
        (length l1 ∉ all_public e)
        /\ (dict_to_list headers d ∉ written e)
        /\ exists e',
             prepare_public_csv headers (l1 ++ l2) = Done e'
             /\ written e' = written e /\ tally e' = tally e).
Proof.
  intros Hd.
  assert (Hcl : classify d = None) by (unfold classify; by rewrite Hd).
  assert (Hpub : is_public d = false) by (unfold is_public; by rewrite Hcl).
  assert (Hpen : is_pending d = false) by (unfold is_pending; by rewrite Hcl).
  assert (Hexc : is_excluded d = false) by (unfold is_excluded; by rewrite Hcl).
  assert (Hlines : lines_of headers (l1 ++ d :: l2) = lines_of headers (l1 ++ l2)).
  { unfold lines_of. rewrite !filter_insert by done.
    by rewrite tally_of_insert, Hexc. }
  split.
  { intros st row Hrow. unfold loop_body. cbv zeta. by rewrite Hrow, Hd. }
  destruct (first_missing [COL_PRENOM; COL_NOM; COL_CONSENT] headers)
    as [col|] eqn:Hcols.
  - unfold prepare_public_csv. rewrite Hcols. split; [done|]. by intros e.
  - rewrite !prepare_public_csv_spec by done. cbv zeta.
    apply first_missing_None in Hcols as (Hp & Hn & Hc).
    split.
    { intros disk. cbn [output_after written]. by rewrite Hlines. }
    intros e [= <-]. cbn [written tally final_heap all_public].
    split; [by apply unlisted_row|].
    split; [by apply nameless_not_written|].
    eexists. split; [reflexivity|]. cbn [written tally].
    by rewrite Hlines, tally_of_insert, Hexc.
Qed.

(** ** Field Redactor *)

(** C4. Masking a pending record makes a new object and writes to that
    object only: every object the store held, the record itself
    included, is as before; the new object agrees with the record on
    every field outside the sensitive set; and the new object depends
    on the content of the record alone. Over a whole run, the rows read
    from the input end as they began. *)
Theorem redactor_is_pure (st : state) (row : nat) :
  let d := deref (heap st) row in
  let st' := loop_body st row in
  let masked := length (heap st) in
  nameless d = false ->
  startswith (lower (strip (get d COL_CONSENT))) (py "oui") = false ->
  startswith (lower (strip (get d COL_CONSENT))) (py "non") = false ->
  (forall l, (l < length (heap st))%nat -> heap st' !! l = heap st !! l)
  /\ length (heap st') = S (length (heap st))
  /\ pending_rows st' = pending_rows st ++ [masked]
  /\ public_rows st' = public_rows st
  /\ (forall k, k ∉ COLS_SENSITIVE ->
        deref (heap st') masked !! k = d !! k)
  /\ (forall st2 row2,
        deref (heap st2) row2 = d ->
        deref (heap (loop_body st2 row2)) (length (heap st2))
        = deref (heap st') masked)
  /\ (forall headers rows e,
        prepare_public_csv headers rows = Done e ->
        forall l, (l < length rows)%nat -> final_heap e !! l = rows !! l).
Proof.
  intros d st' masked Hname Houi Hnon.
  assert (Hd : classify d = Some Pending).
  { unfold classify, disposition_of, consent_of. by rewrite Hname, Houi, Hnon. }
  assert (Hst : st' = State (heap st ++ [mask d]) (public_rows st)
                            (pending_rows st ++ [masked]) (excluded_stats st)).
  { subst st'. rewrite loop_body_classify. cbv zeta. fold d. by rewrite Hd. }
  rewrite Hst. cbn [heap pending_rows public_rows].
  split; [intros l Hl; by rewrite lookup_app_l|].
  split; [rewrite length_app; cbn [length]; lia|].
  split; [reflexivity|]. split; [reflexivity|].
  split.
  { intros k Hk. subst masked. rewrite deref_new, mask_lookup.
    by rewrite bool_decide_eq_false_2. }
  split.
  { intros st2 row2 Hrow2. rewrite loop_body_classify. cbv zeta.
    rewrite Hrow2, Hd. cbn [heap]. subst masked. by rewrite !deref_new. }
  intros headers rows e He l Hl.
  unfold prepare_public_csv in He.
  destruct (first_missing _ headers); [discriminate He|].
  cbv zeta in He. injection He as <-. cbn [final_heap].
  rewrite classification_pass_spec. cbn [heap].
  rewrite <- app_assoc. by rewrite lookup_app_l.
Qed.

(** C10. The masked copy of a pending record has the keys of the
    record and no other. A sensitive column that the record has no key
    for is not added, so its cell in the row written for the member is
    the empty string, even for the primary e-mail column, whose
    placeholder is not empty. *)
Theorem redactor_adds_no_key
        (headers : list pystr) (l1 l2 : list dict) (d : dict) :
  COL_PRENOM ∈ headers -> COL_NOM ∈ headers -> COL_CONSENT ∈ headers ->
  nameless d = false ->
  startswith (lower (strip (get d COL_CONSENT))) (py "oui") = false ->
  startswith (lower (strip (get d COL_CONSENT))) (py "non") = false ->
  exists e m,
    let rows := l1 ++ d :: l2 in
    let masked := (length rows + length (List.filter is_pending l1))%nat in
    let i := (1 + length (List.filter is_public rows)
              + length (List.filter is_pending l1))%nat in
    prepare_public_csv headers rows = Done e
    /\ final_heap e !! masked = Some m
    /\ masked ∈ all_public e
    /\ written e !! i = Some (dict_to_list headers m)
    /\ dom m = dom d
    /\ (forall col, col ∈ COLS_SENSITIVE -> d !! col = None ->
          m !! col = None
          /\ forall j, headers !! j = Some col ->
                dict_to_list headers m !! j = Some [])
    /\ COL_EMAIL ∈ COLS_SENSITIVE
    /\ get PLACEHOLDER COL_EMAIL <> [].
Proof.
  intros Hp Hn Hc Hname Houi Hnon.
  assert (Hcols : first_missing [COL_PRENOM; COL_NOM; COL_CONSENT] headers = None)
    by (apply first_missing_None; auto).
  assert (Hd : is_pending d = true) by (by apply is_pending_intro).
  destruct (pending_row_written headers l1 l2 d Hcols Hd)
    as (e & He & Hrow & Hmasked & Hin & Hline).
  exists e, (mask d). cbv zeta.
  split; [exact He|]. split; [exact Hmasked|]. split; [exact Hin|].
  split; [exact Hline|]. split; [apply mask_dom|].
  split; [|split].
  - intros col Hcol Hnone.
    assert (Hm : mask d !! col = None).
    { rewrite mask_lookup, bool_decide_eq_true_2 by done. by rewrite Hnone. }
    split; [exact Hm|]. intros j Hj.
    rewrite (dict_to_list_lookup _ _ _ _ Hj). unfold get. by rewrite Hm.
  - apply list_elem_of_In. vm_compute. by left.
  - intros H. vm_compute in H. discriminate H.
Qed.

(** ** The example of the specification *)

(** C9, as amended. When each of the three rows of the example also has
    a first name, the rows written after the header row are the first
    row as it is, the third row with the placeholder address in its
    e-mail field, and the statistics row for the counters 1, 0, 1,
    0. *)
Theorem example_with_names (headers : list pystr) :
  COL_PRENOM ∈ headers -> COL_NOM ∈ headers -> COL_CONSENT ∈ headers ->
  exists e,
    prepare_public_csv headers [named_row1; named_row2; named_row3] = Done e
    /\ tally e = Counters 1 0 1 0
    /\ written e =
         [ headers;
           dict_to_list headers named_row1;
           dict_to_list headers
             (<[COL_EMAIL := py "membre@rsn-placeholder.ca"]> named_row3);
           dict_to_list headers (make_stats_row headers (Counters 1 0 1 0)) ]
    /\ get (make_stats_row headers (Counters 1 0 1 0)) COL_EMAIL = py "1,0,1,0".
Proof.
  intros Hp Hn Hc.
  assert (Hcols : first_missing [COL_PRENOM; COL_NOM; COL_CONSENT] headers = None)
    by (apply first_missing_None; auto).
  rewrite prepare_public_csv_spec by done. cbv zeta.
  eexists. split; [reflexivity|]. cbn [tally written].
  assert (Ht : tally_of (Counters 0 0 0 0) [named_row1; named_row2; named_row3]
               = Counters 1 0 1 0) by (vm_compute; reflexivity).
  assert (Hpub : List.filter is_public [named_row1; named_row2; named_row3]
                 = [named_row1]).
  { cbn [List.filter].
    replace (is_public named_row1) with true by (vm_compute; reflexivity).
    replace (is_public named_row2) with false by (vm_compute; reflexivity).
    replace (is_public named_row3) with false by (vm_compute; reflexivity).
    exact eq_refl. }
  assert (Hpen : List.filter is_pending [named_row1; named_row2; named_row3]
                 = [named_row3]).
  { cbn [List.filter].
    replace (is_pending named_row1) with false by (vm_compute; reflexivity).
    replace (is_pending named_row2) with false by (vm_compute; reflexivity).
    replace (is_pending named_row3) with true by (vm_compute; reflexivity).
    exact eq_refl. }
  assert (Hmask : mask named_row3
                  = <[COL_EMAIL := py "membre@rsn-placeholder.ca"]> named_row3).
  { rewrite (mask_single named_row3 COL_EMAIL).
    - by rewrite (proj1 placeholder_values).
    - apply list_elem_of_In. vm_compute. by left.
    - replace (named_row3 !! COL_EMAIL) with (Some (py "b@x.com"))
        by (vm_compute; reflexivity).
      by eexists.
    - vm_compute. reflexivity. }
  split; [exact Ht|]. split.
  - unfold lines_of. rewrite Hpub, Hpen, Ht. cbn [List.map app].
    rewrite Hmask. exact eq_refl.
  - rewrite stats_row_get.
    destruct critical_columns_distinct as (H1 & H2 & H3 & H4 & H5 & H6).
    rewrite decide_False by congruence. rewrite decide_True by reflexivity.
    vm_compute. reflexivity.
Qed.

(** * Further properties of the export *)

(** ** Every row is accounted for *)

Lemma classify_partition (rows : list dict) :
  (length (List.filter is_public rows) + length (List.filter is_pending rows)
   + length (List.filter is_excluded rows) + length (List.filter nameless rows))%nat
  = length rows.
Proof using.
  induction rows as [|d rows IH]; [reflexivity|].
  cbn [List.filter length].
  unfold is_public at 1, is_pending at 1, is_excluded at 1, classify.
  destruct (nameless d); [cbn [length]; lia|].
  destruct (disposition_of (consent_of d)); cbn [length]; lia.
Qed.

Lemma is_excluded_bool (d : dict) :
  is_excluded d
  = negb (nameless d)
    && startswith (lower (strip (get d COL_CONSENT))) (py "non").
Proof using.
  unfold is_excluded, classify, disposition_of, consent_of.
  destruct (nameless d); [reflexivity|]. cbn [negb andb].
  destruct (startswith _ (py "non")) eqn:Hnon.
  - by rewrite (oui_non_exclusive _ Hnon).
  - by destruct (startswith _ (py "oui")).
Qed.

Lemma count_excluded_total (t : pystr) (c : counters) :
  total (count_excluded t c) = (total c + 1)%Z.
Proof using.
  unfold count_excluded. cbv zeta.
  destruct (_ || _); [reflexivity|]. destruct (_ || _); [reflexivity|].
  by destruct (contains _ _).
Qed.

(** What one refusal does to the three typed counters. *)
Lemma count_excluded_typed (t : pystr) (c : counters) :
  (regulier c <= regulier (count_excluded t c))%Z
  /\ (etudiant c <= etudiant (count_excluded t c))%Z
  /\ (partenaire c <= partenaire (count_excluded t c))%Z
  /\ (regulier (count_excluded t c) + etudiant (count_excluded t c)
      + partenaire (count_excluded t c)
      <= regulier c + etudiant c + partenaire c + 1)%Z.
Proof using.
  unfold count_excluded. cbv zeta.
  destruct (_ || _); [cbn; lia|]. destruct (_ || _); [cbn; lia|].
  destruct (contains _ _); cbn; lia.
Qed.

Lemma tally_of_total (c : counters) (rows : list dict) :
  total (tally_of c rows)
  = (total c + Z.of_nat (length (List.filter is_excluded rows)))%Z.
Proof using.
  revert c. induction rows as [|d rows IH]; intros c.
  - cbn. lia.
  - unfold tally_of in *. cbn [foldl List.filter].
    destruct (is_excluded d); rewrite IH; [|reflexivity].
    rewrite count_excluded_total. cbn [length]. lia.
Qed.

Lemma tally_of_typed (c : counters) (rows : list dict) :
  let c' := tally_of c rows in
  (regulier c <= regulier c')%Z /\ (etudiant c <= etudiant c')%Z
  /\ (partenaire c <= partenaire c')%Z
  /\ (regulier c' + etudiant c' + partenaire c' - total c'
      <= regulier c + etudiant c + partenaire c - total c)%Z.
Proof using.
  cbv zeta. revert c. induction rows as [|d rows IH]; intros c.
  - cbn. lia.
  - unfold tally_of in *. cbn [foldl].
    destruct (is_excluded d); [|apply IH].
    specialize (IH (count_excluded (type_of d) c)).
    pose proof (count_excluded_typed (type_of d) c).
    pose proof (count_excluded_total (type_of d) c). lia.
Qed.

(** X1. The counters of the statistics row count the refusals: the
    total is the number of named rows whose trimmed, lower-cased
    consent begins with "non"; the three typed counters are not
    negative and add up to the total at most. *)
Theorem tally_counts_refusals (headers : list pystr) (rows : list dict) :
  COL_PRENOM ∈ headers -> COL_NOM ∈ headers -> COL_CONSENT ∈ headers ->
  exists e,
    prepare_public_csv headers rows = Done e
    /\ total (tally e)
       = Z.of_nat
           (length
              (List.filter
                 (fun d => negb (nameless d)
                           && startswith (lower (strip (get d COL_CONSENT)))
                                         (py "non"))
                 rows))
    /\ (0 <= regulier (tally e))%Z /\ (0 <= etudiant (tally e))%Z
    /\ (0 <= partenaire (tally e))%Z
    /\ (regulier (tally e) + etudiant (tally e) + partenaire (tally e)
        <= total (tally e))%Z.
Proof using.
  intros Hp Hn Hc.
  assert (Hcols : first_missing [COL_PRENOM; COL_NOM; COL_CONSENT] headers = None)
    by (apply first_missing_None; auto).
  rewrite prepare_public_csv_spec by exact Hcols. cbv zeta.
  eexists. split; [reflexivity|]. cbn [tally].
  pose proof (tally_of_typed (Counters 0 0 0 0) rows) as Ht.
  cbv zeta in Ht. cbn [total regulier etudiant partenaire] in Ht.
  split; [|lia].
  rewrite tally_of_total. cbn [total]. rewrite Z.add_0_l. do 2 f_equal.
  apply List.filter_ext. intros d. apply is_excluded_bool.
Qed.

(** ** The summary *)

Lemma count_with_form_deref (h : list dict) (pending : list nat) (n : Z) :
  foldl (fun n r =>
           if falsy (strip (get (deref h r) COL_AXE1)) then n else (n + 1)%Z)
        n pending
  = (n + Z.of_nat
           (length
              (List.filter
                 (fun d => negb (falsy (strip (get d COL_AXE1))))
                 (List.map (deref h) pending))))%Z.
Proof using.
  revert n. induction pending as [|r pending IH]; intros n.
  - cbn. lia.
  - cbn [foldl List.map List.filter]. rewrite IH.
    destruct (falsy _); cbn [negb length]; lia.
Qed.

Lemma axis_column_spared : COL_AXE1 ∉ COLS_SENSITIVE.
Proof using.
  intros H. apply list_elem_of_In in H. vm_compute in H. intuition discriminate.
Qed.

Lemma filter_filter_and {A} (f g : A -> bool) (l : list A) :
  List.filter f (List.filter g l) = List.filter (fun x => g x && f x) l.
Proof using.
  induction l as [|x l IH]; [reflexivity|]. cbn [List.filter].
  destruct (g x); cbn [List.filter andb]; [|exact IH].
  destruct (f x); by rewrite IH.
Qed.

Lemma filter_map_comm {A B} (f : B -> bool) (m : A -> B) (l : list A) :
  List.filter f (List.map m l) = List.map m (List.filter (fun x => f (m x)) l).
Proof using.
  induction l as [|x l IH]; [reflexivity|]. cbn [List.filter List.map].
  destruct (f (m x)); cbn [List.map]; by rewrite IH.
Qed.

(** X2. The summary accounts for every row read: the public members,
    the pending members with and without the form, the excluded
    members and the rows without a name add up to the number of rows.
    The count of pending members who filled the form, taken on the
    masked copies, is the count taken on the rows as read, since the
    first interest axis is no sensitive column; neither pending count
    is negative. *)
Theorem summary_accounts_for_every_row (rows : list dict) :
  let r := report rows in
  membres_total r
  = (membres_publics r + pending_with_form r + pending_without_form r
     + membres_exclus r
     + Z.of_nat (length (List.filter nameless rows)))%Z
  /\ pending_with_form r
     = Z.of_nat
         (length
            (List.filter
               (fun d => is_pending d
                         && negb (falsy (strip (get d COL_AXE1))))
               rows))
  /\ (0 <= pending_with_form r)%Z /\ (0 <= pending_without_form r)%Z
  /\ membres_publics r = Z.of_nat (length (List.filter is_public rows))
  /\ (pending_with_form r + pending_without_form r)%Z
     = Z.of_nat (length (List.filter is_pending rows)).
Proof using.
  cbv zeta. unfold report. rewrite classification_pass_spec.
  cbv zeta. cbn [heap public_rows pending_rows excluded_stats
                 membres_total membres_publics pending_with_form
                 pending_without_form membres_exclus].
  unfold count_with_form. rewrite count_with_form_deref.
  assert (Hmasked :
            List.map (deref (rows ++ List.map mask (List.filter is_pending rows)))
                     (seq (length rows) (length (List.filter is_pending rows)))
            = List.map mask (List.filter is_pending rows)).
  { pose proof (seq_deref rows (List.map mask (List.filter is_pending rows)) [])
      as H.
    rewrite app_nil_r, length_map in H. exact H. }
  rewrite Hmasked, filter_map_comm, length_map, filter_filter_and.
  assert (Hax : forall d, negb (falsy (strip (get (mask d) COL_AXE1)))
                          = negb (falsy (strip (get d COL_AXE1)))).
  { intros d. by rewrite (get_mask_other d COL_AXE1) by apply axis_column_spared. }
  assert (Hf : List.filter
                 (fun x => is_pending x
                           && negb (falsy (strip (get (mask x) COL_AXE1))))
                 rows
               = List.filter
                   (fun d => is_pending d
                             && negb (falsy (strip (get d COL_AXE1))))
                   rows)
    by (apply List.filter_ext; intros d; by rewrite Hax).
  rewrite Hf.
  rewrite length_seq, tally_of_total. cbn [total].
  assert (Hpub : length (pub_locs 0 rows) = length (List.filter is_public rows)).
  { rewrite <- (length_map (deref ((@nil dict ++ rows) ++ @nil dict))
                           (pub_locs (length (@nil dict)) rows)).
    by rewrite pub_locs_deref. }
  rewrite Hpub.
  pose proof (classify_partition rows) as Hpart.
  assert (Hle : (length (List.filter
                           (fun d => is_pending d
                                     && negb (falsy (strip (get d COL_AXE1))))
                           rows)
                 <= length (List.filter is_pending rows))%nat).
  { rewrite <- filter_filter_and. apply List.filter_length_le. }
  repeat split; lia.
Qed.

(** ** The table written *)

(** X3. The table written is rectangular: every row, the header row
    and the statistics row included, has one cell per header; and it
    has two rows more than there are public and pending members. *)
Theorem written_table_is_rectangular (headers : list pystr) (rows : list dict) :
  COL_PRENOM ∈ headers -> COL_NOM ∈ headers -> COL_CONSENT ∈ headers ->
  exists e,
    prepare_public_csv headers rows = Done e
    /\ (forall line, line ∈ written e -> length line = length headers)
    /\ length (written e)
       = (2 + length (List.filter is_public rows)
          + length (List.filter is_pending rows))%nat.
Proof using.
  intros Hp Hn Hc.
  assert (Hcols : first_missing [COL_PRENOM; COL_NOM; COL_CONSENT] headers = None)
    by (apply first_missing_None; auto).
  rewrite prepare_public_csv_spec by exact Hcols. cbv zeta.
  eexists. split; [reflexivity|]. cbn [written]. split.
  - intros line Hin.
    apply lines_of_elem in Hin as [->|[(d & _ & ->)|[(d & _ & ->)|(c & ->)]]];
      [reflexivity|apply dict_to_list_length..].
  - unfold lines_of. cbn [length].
    rewrite !length_app, !length_map. cbn [length]. lia.
Qed.

(** ** What the output does not depend on *)

Lemma classify_agree (d1 d2 : dict) :
  get d1 COL_PRENOM = get d2 COL_PRENOM ->
  get d1 COL_NOM = get d2 COL_NOM ->
  get d1 COL_CONSENT = get d2 COL_CONSENT ->
  classify d1 = classify d2.
Proof using.
  intros H1 H2 H3. unfold classify, consent_of.
  by rewrite (nameless_get d1 d2 H1 H2), H3.
Qed.

Lemma mask_agree (d1 d2 : dict) :
  dom d1 = dom d2 ->
  (forall k, k ∉ COLS_SENSITIVE -> d1 !! k = d2 !! k) ->
  mask d1 = mask d2.
Proof using unicode_lower.
  intros Hdom Hother. apply map_eq. intros k. rewrite !mask_lookup.
  case_bool_decide as Hk; [|by apply Hother].
  assert (Hs : is_Some (d1 !! k) <-> is_Some (d2 !! k))
    by (by rewrite <- !elem_of_dom, Hdom).
  destruct (d1 !! k) as [v1|] eqn:H1, (d2 !! k) as [v2|] eqn:H2;
    [reflexivity| | |reflexivity].
  - destruct Hs as [Hs _]. destruct Hs as [? ?]; [by eexists|discriminate].
  - destruct Hs as [_ Hs]. destruct Hs as [? ?]; [by eexists|discriminate].
Qed.

(** X4. The file written does not depend on the values of the
    sensitive fields of a pending member: two inputs that differ only
    in those values, in one pending row, give the same file. *)
Theorem pending_sensitive_values_do_not_leak
        (headers : list pystr) (l1 l2 : list dict) (d1 d2 : dict)
        (disk : option (list (list pystr))) :
  nameless d1 = false ->
  startswith (lower (strip (get d1 COL_CONSENT))) (py "oui") = false ->
  startswith (lower (strip (get d1 COL_CONSENT))) (py "non") = false ->
  dom d1 = dom d2 ->
  (forall k, k ∉ COLS_SENSITIVE -> d1 !! k = d2 !! k) ->
  output_after disk (prepare_public_csv headers (l1 ++ d1 :: l2))
  = output_after disk (prepare_public_csv headers (l1 ++ d2 :: l2)).
Proof using.
  intros Hname Houi Hnon Hdom Hother.
  assert (Hd1 : is_pending d1 = true) by (by apply is_pending_intro).
  destruct sensitive_columns_spare as (Hsp & Hsn & Hsc & _).
  assert (Hget : forall k, k ∉ COLS_SENSITIVE -> get d1 k = get d2 k)
    by (intros k Hk; unfold get; by rewrite (Hother k Hk)).
  assert (Hcl : classify d1 = classify d2)
    by (apply classify_agree; by apply Hget).
  assert (Hd2 : is_pending d2 = true)
    by (unfold is_pending in *; by rewrite <- Hcl).
  assert (Hpub1 : is_public d1 = false).
  { unfold is_public. unfold is_pending in Hd1.
    by destruct (classify d1) as [[]|]. }
  assert (Hpub2 : is_public d2 = false)
    by (unfold is_public in *; by rewrite <- Hcl).
  assert (Hexc1 : is_excluded d1 = false).
  { unfold is_excluded. unfold is_pending in Hd1.
    by destruct (classify d1) as [[]|]. }
  assert (Hexc2 : is_excluded d2 = false)
    by (unfold is_excluded in *; by rewrite <- Hcl).
  destruct (first_missing [COL_PRENOM; COL_NOM; COL_CONSENT] headers)
    as [col|] eqn:Hcols.
  - unfold prepare_public_csv. by rewrite Hcols.
  - rewrite !prepare_public_csv_spec by exact Hcols. cbv zeta.
    cbn [output_after written]. f_equal. unfold lines_of.
    rewrite !(filter_insert is_public) by assumption.
    rewrite !(filter_middle is_pending) by assumption.
    rewrite !tally_of_insert, Hexc1, Hexc2.
    rewrite !map_app. cbn [List.map].
    by rewrite (mask_agree d1 d2 Hdom Hother).
Qed.

(** X5. Of a member who refused, the file written depends on the
    membership type alone: two inputs that differ in one refusing row,
    with the same value under the membership-type column, give the
    same file, whatever the other fields of that row are. *)
Theorem refusing_member_fields_do_not_leak
        (headers : list pystr) (l1 l2 : list dict) (d1 d2 : dict)
        (disk : option (list (list pystr))) :
  nameless d1 = false ->
  startswith (lower (strip (get d1 COL_CONSENT))) (py "non") = true ->
  nameless d2 = false ->
  startswith (lower (strip (get d2 COL_CONSENT))) (py "non") = true ->
  get d1 COL_TYPE = get d2 COL_TYPE ->
  output_after disk (prepare_public_csv headers (l1 ++ d1 :: l2))
  = output_after disk (prepare_public_csv headers (l1 ++ d2 :: l2)).
Proof using.
  intros Hn1 Hc1 Hn2 Hc2 Htype.
  assert (H1 : is_excluded d1 = true) by (by apply is_excluded_iff).
  assert (H2 : is_excluded d2 = true) by (by apply is_excluded_iff).
  assert (Hrest : forall d, is_excluded d = true ->
                            is_public d = false /\ is_pending d = false).
  { intros d Hd. unfold is_public, is_pending. unfold is_excluded in Hd.
    by destruct (classify d) as [[]|]. }
  destruct (Hrest d1 H1) as [Hpub1 Hpen1].
  destruct (Hrest d2 H2) as [Hpub2 Hpen2].
  destruct (first_missing [COL_PRENOM; COL_NOM; COL_CONSENT] headers)
    as [col|] eqn:Hcols.
  - unfold prepare_public_csv. by rewrite Hcols.
  - rewrite !prepare_public_csv_spec by exact Hcols. cbv zeta.
    cbn [output_after written]. f_equal. unfold lines_of.
    rewrite !(filter_insert is_public), !(filter_insert is_pending)
      by assumption.
    rewrite !tally_of_insert, H1, H2. unfold type_of. by rewrite Htype.
Qed.

(** ** The packed counters *)

Lemma utf8_decode_ascii (bs : list N) :
  Forall (fun b => b < 128) bs -> utf8_decode bs = bs.
Proof using.
  induction 1 as [|b bs Hb _ IH]; [reflexivity|].
  cbn [utf8_decode]. apply N.ltb_lt in Hb. by rewrite Hb, IH.
Qed.

(** The characters of a decimal numeral: digits, after a sign
    perhaps. *)
Definition numeral_char (c : N) : Prop := c = 45 \/ (48 <= c <= 57).

Lemma string_of_uint_chars (d : Decimal.uint) :
  Forall numeral_char
         (List.map N_of_ascii
                   (list_ascii_of_string (NilEmpty.string_of_uint d))).
Proof using.
  induction d; cbn [NilEmpty.string_of_uint list_ascii_of_string List.map];
    constructor; try assumption; right; vm_compute; split; discriminate.
Qed.

Lemma string_of_int_chars (d : Decimal.int) :
  Forall numeral_char
         (List.map N_of_ascii
                   (list_ascii_of_string (NilZero.string_of_int d))).
Proof using.
  assert (Hu : forall u,
             Forall numeral_char
                    (List.map N_of_ascii
                              (list_ascii_of_string (NilZero.string_of_uint u)))).
  { intros u. destruct u; try apply string_of_uint_chars.
    constructor; [right; vm_compute; split; discriminate|constructor]. }
  destruct d as [u|u]; cbn [NilZero.string_of_int list_ascii_of_string List.map].
  - apply Hu.
  - constructor; [by left|apply Hu].
Qed.

Lemma str_of_int_bytes (z : Z) :
  str_of_int z
  = List.map N_of_ascii
             (list_ascii_of_string (NilZero.string_of_int (Z.to_int z))).
Proof using.
  unfold str_of_int, py. apply utf8_decode_ascii.
  eapply Forall_impl; [apply string_of_int_chars|].
  intros c [->|[_ Hc]]; lia.
Qed.

Lemma str_of_int_chars (z : Z) : Forall numeral_char (str_of_int z).
Proof using. rewrite str_of_int_bytes. apply string_of_int_chars. Qed.

Lemma to_int_not_nil (z : Z) :
  Z.to_int z <> Decimal.Pos Decimal.Nil /\ Z.to_int z <> Decimal.Neg Decimal.Nil.
Proof using.
  split; intros H; pose proof (f_equal Z.of_int H) as H';
    rewrite DecimalZ.of_to in H'; vm_compute in H'; subst z;
    vm_compute in H; discriminate H.
Qed.

Lemma str_of_int_inj (z1 z2 : Z) : str_of_int z1 = str_of_int z2 -> z1 = z2.
Proof using.
  rewrite !str_of_int_bytes. intros H.
  apply (f_equal (List.map ascii_of_N)) in H.
  rewrite !map_map in H.
  rewrite !(map_ext _ (fun a => a) ascii_N_embedding), !map_id in H.
  apply (f_equal string_of_list_ascii) in H.
  rewrite !string_of_list_ascii_of_string in H.
  apply (f_equal NilZero.int_of_string) in H.
  destruct (to_int_not_nil z1) as [Ha Hb], (to_int_not_nil z2) as [Hc Hd].
  rewrite !NilZero.isi in H by assumption.
  injection H as H. by apply DecimalZ.to_int_inj.
Qed.

(** Two texts cut at their first comma. *)
Lemma split_at_comma (a a' b b' : pystr) :
  Forall numeral_char a -> Forall numeral_char a' ->
  a ++ 44 :: b = a' ++ 44 :: b' -> a = a' /\ b = b'.
Proof using.
  intros Ha. revert a'. induction Ha as [|x a Hx Ha IH]; intros a' Ha' H.
  - destruct Ha' as [|y a' Hy Ha'].
    + by injection H.
    + exfalso. injection H as <- _. destruct Hy as [?|[? ?]]; lia.
  - destruct Ha' as [|y a' Hy Ha'].
    + exfalso. injection H as -> _. destruct Hx as [?|[? ?]]; lia.
    + injection H as -> H. destruct (IH a' Ha' H) as [-> ->]. done.
Qed.

(** X6. The counters can be read back from the statistics row: two
    sets of counters with the same packed text under the e-mail column
    are the same set. The text is made of decimal numerals and three
    commas. *)
Theorem packed_counters_determine_tally
        (headers : list pystr) (c1 c2 : counters) :
  get (make_stats_row headers c1) COL_EMAIL
  = get (make_stats_row headers c2) COL_EMAIL ->
  c1 = c2
  /\ get (make_stats_row headers c1) COL_EMAIL
     = str_of_int (total c1) ++ [44] ++ str_of_int (regulier c1) ++ [44]
       ++ str_of_int (etudiant c1) ++ [44] ++ str_of_int (partenaire c1)
  /\ Forall numeral_char (str_of_int (total c1))
  /\ Forall numeral_char (str_of_int (regulier c1))
  /\ Forall numeral_char (str_of_int (etudiant c1))
  /\ Forall numeral_char (str_of_int (partenaire c1)).
Proof using.
  destruct critical_columns_distinct as (H1 & H2 & H3 & H4 & H5 & H6).
  rewrite !stats_row_get.
  rewrite !(decide_False (P := COL_EMAIL = COL_PRENOM)) by congruence.
  rewrite !(decide_True (P := COL_EMAIL = COL_EMAIL)) by reflexivity.
  unfold packed. change (py ",") with [44]. cbn [app].
  intros H. split; [|split; [reflexivity|repeat split; apply str_of_int_chars]].
  apply split_at_comma in H as [Ht H]; try apply str_of_int_chars.
  apply split_at_comma in H as [Hr H]; try apply str_of_int_chars.
  apply split_at_comma in H as [He Hp]; try apply str_of_int_chars.
  apply str_of_int_inj in Ht, Hr, He, Hp.
  destruct c1, c2. cbn [total regulier etudiant partenaire] in *.
  subst. reflexivity.
Qed.

(** * The table reader *)

(** ** Trimming *)

Lemma lstrip_head (s : pystr) :
  match lstrip s with [] => True | c :: _ => isspace c = false end.
Proof using.
  induction s as [|c s IH]; [exact I|]. cbn [lstrip].
  destruct (isspace c) eqn:Hc; [exact IH|exact Hc].
Qed.

Lemma lstrip_fixed (s : pystr) :
  match s with [] => True | c :: _ => isspace c = false end -> lstrip s = s.
Proof using. destruct s as [|c s]; [reflexivity|]. cbn [lstrip]. by intros ->. Qed.

Lemma lstrip_suffix (s : pystr) : exists p, s = p ++ lstrip s.
Proof using.
  induction s as [|c s [p IH]]; [by exists []|]. cbn [lstrip].
  destruct (isspace c); [|by exists []].
  exists (c :: p). cbn [app]. by rewrite <- IH.
Qed.

(** A trimmed text neither begins nor ends with white space. *)
Lemma strip_trimmed (s : pystr) :
  lstrip (strip s) = strip s /\ lstrip (rev (strip s)) = rev (strip s).
Proof using.
  unfold strip. set (t := lstrip s). set (u := lstrip (rev t)).
  rewrite rev_involutive. split; [|apply lstrip_fixed, lstrip_head].
  apply lstrip_fixed.
  destruct (lstrip_suffix (rev t)) as [p Hp]. fold u in Hp.
  apply (f_equal (@rev N)) in Hp. rewrite rev_involutive, rev_app_distr in Hp.
  pose proof (lstrip_head s) as Ht. fold t in Ht.
  destruct (rev u) as [|c w]; [exact I|].
  rewrite Hp in Ht. exact Ht.
Qed.

Lemma strip_idem (s : pystr) : strip (strip s) = strip s.
Proof using.
  destruct (strip_trimmed s) as [H1 H2].
  unfold strip at 1. by rewrite H1, H2, rev_involutive.
Qed.

(** ** The rows of the reader *)

Lemma od_set_keys (d : list (pystr * option pystr)) (k k' : pystr)
      (v : option pystr) :
  k' ∈ (od_set d k v).*1 <-> k' = k \/ k' ∈ d.*1.
Proof using.
  clear unicode_lower.
  induction d as [|[k0 v0] d IH]; cbn [od_set].
  - rewrite list_fmap_singleton, list_elem_of_singleton. cbn.
    rewrite elem_of_nil. tauto.
  - case_decide as Hk.
    + subst k0. rewrite !fmap_cons, !elem_of_cons. cbn. tauto.
    + rewrite !fmap_cons, !elem_of_cons, IH. cbn. tauto.
Qed.

Lemma od_set_nodup (d : list (pystr * option pystr)) (k : pystr)
      (v : option pystr) :
  NoDup d.*1 -> NoDup (od_set d k v).*1.
Proof using.
  clear unicode_lower.
  induction d as [|[k0 v0] d IH]; cbn [od_set]; intros Hd.
  - rewrite list_fmap_singleton. apply NoDup_singleton.
  - rewrite fmap_cons in Hd. apply NoDup_cons in Hd as [Hk0 Hd].
    case_decide as Hk.
    + subst k0. rewrite fmap_cons. by apply NoDup_cons.
    + rewrite fmap_cons. apply NoDup_cons. split; [|by apply IH].
      cbn. rewrite od_set_keys. intros [?|?]; [congruence|done].
Qed.

(** The value under a key after [d[k] = v]. *)
Lemma od_set_elem (d : list (pystr * option pystr)) (k k' : pystr)
      (v v' : option pystr) :
  NoDup d.*1 ->
  (k', v') ∈ od_set d k v <->
  (k' = k /\ v' = v) \/ (k' <> k /\ (k', v') ∈ d).
Proof using.
  induction d as [|[k0 v0] d IH]; cbn [od_set]; intros Hd.
  - rewrite list_elem_of_singleton, elem_of_nil. split.
    + intros [= -> ->]. by left.
    + intros [[-> ->]|[_ []]]. reflexivity.
  - rewrite fmap_cons in Hd. apply NoDup_cons in Hd as [Hk0 Hd]. cbn in Hk0.
    case_decide as Hk.
    + subst k0. rewrite !elem_of_cons. split.
      * intros [[= -> ->]|Hin]; [by left|]. right. split; [|by right].
        intros ->. apply Hk0. apply list_elem_of_fmap. by exists (k, v').
      * intros [[-> ->]|[Hne [[= ? ?]|Hin]]]; [by left|congruence|by right].
    + rewrite !elem_of_cons, (IH Hd). split.
      * intros [[= -> ->]|[[-> ->]|[Hne Hin]]].
        -- right. split; [congruence|by left].
        -- by left.
        -- right. split; [done|by right].
      * intros [[-> ->]|[Hne [[= -> ->]|Hin]]].
        -- right. by left.
        -- by left.
        -- right. right. by split.
Qed.

Lemma zip_fst_take {A B} (l : list A) (k : list B) :
  (zip l k).*1 = take (length k) l.
Proof using.
  revert k. induction l as [|x l IH]; intros [|y k]; try reflexivity.
  cbn. by rewrite <- IH.
Qed.

Lemma fold_some_keys (kvs : list (pystr * pystr))
      (d : list (pystr * option pystr)) (k : pystr) :
  k ∈ (foldl (fun d kv => od_set d (fst kv) (Some (snd kv))) d kvs).*1
  <-> k ∈ d.*1 \/ k ∈ kvs.*1.
Proof using.
  clear unicode_lower.
  revert d. induction kvs as [|[k0 v0] kvs IH]; intros d; cbn [foldl].
  - rewrite fmap_nil, elem_of_nil. tauto.
  - rewrite IH, od_set_keys, fmap_cons, elem_of_cons. cbn. tauto.
Qed.

Lemma fold_none_keys (ks : list pystr)
      (d : list (pystr * option pystr)) (k : pystr) :
  k ∈ (foldl (fun d k => od_set d k None) d ks).*1 <-> k ∈ d.*1 \/ k ∈ ks.
Proof using.
  clear unicode_lower.
  revert d. induction ks as [|k0 ks IH]; intros d; cbn [foldl].
  - rewrite elem_of_nil. tauto.
  - rewrite IH, od_set_keys, elem_of_cons. tauto.
Qed.

(** A record that is not longer than the field names gives a row with
    an item for every field name and for nothing else. *)
Lemma dictreader_row_keys (fieldnames row : list pystr) (k : pystr) :
  (length row <= length fieldnames)%nat ->
  rest (dictreader_row fieldnames row) = None
  /\ (k ∈ (items (dictreader_row fieldnames row)).*1 <-> k ∈ fieldnames).
Proof using.
  clear unicode_lower.
  intros Hlen. unfold dictreader_row. cbv zeta.
  destruct (Nat.ltb_spec (length fieldnames) (length row)) as [?|_]; [lia|].
  cbn [rest items]. split; [reflexivity|].
  rewrite fold_none_keys, fold_some_keys, zip_fst_take, fmap_nil, elem_of_nil.
  rewrite <- (take_drop (length row) fieldnames) at 3.
  rewrite elem_of_app. tauto.
Qed.

Lemma dictreader_row_rest (fieldnames row : list pystr) :
  (length fieldnames < length row)%nat ->
  rest (dictreader_row fieldnames row) <> None.
Proof using.
  intros Hlen. unfold dictreader_row. cbv zeta.
  destruct (Nat.ltb_spec (length fieldnames) (length row)) as [_|?]; [|lia].
  discriminate.
Qed.

Lemma clean_row_ok (fieldnames row : list pystr) :
  (length row <= length fieldnames)%nat ->
  clean_row (dictreader_row fieldnames row) = Ok (cleaned_of fieldnames row).
Proof using.
  clear unicode_lower.
  intros Hlen. unfold clean_row. cbv zeta.
  by rewrite (proj1 (dictreader_row_keys fieldnames row [] Hlen)).
Qed.

Lemma clean_row_raises (fieldnames row : list pystr) :
  (length fieldnames < length row)%nat ->
  clean_row (dictreader_row fieldnames row) = Raise AttributeError.
Proof using.
  intros Hlen. unfold clean_row. cbv zeta.
  pose proof (dictreader_row_rest fieldnames row Hlen).
  by destruct (rest _).
Qed.

Lemma read_rows_ok (fieldnames : list pystr) (body : list (list pystr)) :
  Forall (fun r => (length r <= length fieldnames)%nat) body ->
  read_rows fieldnames body
  = Ok (List.map (cleaned_of fieldnames) (List.filter nonblank body)).
Proof using.
  clear unicode_lower.
  induction 1 as [|r body Hr _ IH]; [reflexivity|].
  destruct r as [|c r]; [exact IH|].
  cbn [read_rows List.filter nonblank List.map].
  by rewrite (clean_row_ok _ _ Hr), IH.
Qed.

Lemma read_rows_raises (fieldnames : list pystr) (body : list (list pystr)) :
  Exists (fun r => (length fieldnames < length r)%nat) body ->
  read_rows fieldnames body = Raise AttributeError.
Proof using.
  clear unicode_lower.
  induction body as [|r body IH]; intros Hex.
  - by apply Exists_nil in Hex.
  - destruct r as [|c r].
    + apply Exists_cons in Hex as [Hr|Hex]; [cbn in Hr; lia|]. by apply IH.
    + cbn [read_rows].
      destruct (Nat.le_gt_cases (length (c :: r)) (length fieldnames))
        as [Hle|Hgt].
      * rewrite (clean_row_ok _ _ Hle).
        apply Exists_cons in Hex as [Hr|Hex]; [lia|]. by rewrite IH.
      * by rewrite (clean_row_raises _ _ Hgt).
Qed.

(** X7. On the records that [csv.reader] yields, reading fails in two
    ways only. A file with no record at all raises [TypeError]; a
    record with more fields than the header record raises
    [AttributeError]. In every other case the reader
    returns the trimmed header record and one row for each record after
    it that is not blank, in order. *)
Theorem read_csv_outcomes (records : list (list pystr)) :
  (read_csv records = Raise TypeError <-> records = [])
  /\ (read_csv records = Raise AttributeError
      <-> exists fieldnames body,
            records = fieldnames :: body
            /\ Exists (fun r => (length fieldnames < length r)%nat) body)
  /\ read_csv records <> Raise IndexError
  /\ (forall fieldnames body,
        records = fieldnames :: body ->
        Forall (fun r => (length r <= length fieldnames)%nat) body ->
        read_csv records
        = Ok (List.map strip fieldnames,
              List.map (cleaned_of fieldnames) (List.filter nonblank body))).
Proof using.
  clear unicode_lower.
  destruct records as [|fieldnames body].
  - cbn [read_csv]. split; [done|]. split; [|split; [done|]].
    + split; [done|]. intros (f & b & [=] & _).
    + intros f b [=].
  - cbn [read_csv]. cbv zeta.
    destruct (decide (Forall (fun r => (length r <= length fieldnames)%nat) body))
      as [Hall|Hex].
    + rewrite (read_rows_ok _ _ Hall).
      split; [done|]. split; [|split; [done|]].
      * split; [done|]. intros (f & b & [= <- <-] & Hex).
        apply Exists_exists in Hex as (r & Hin & Hr).
        rewrite Forall_forall in Hall. specialize (Hall r Hin). lia.
      * by intros f b [= <- <-] _.
    + apply not_Forall_Exists in Hex; [|intros r; apply _].
      assert (Hex' : Exists (fun r => (length fieldnames < length r)%nat) body).
      { eapply Exists_impl; [exact Hex|]. intros r Hr. cbn in Hr. lia. }
      rewrite (read_rows_raises _ _ Hex').
      split; [done|]. split; [|split; [done|]].
      * split; [|done]. intros _. by exists fieldnames, body.
      * intros f b [= <- <-] Hall. exfalso.
        apply Exists_exists in Hex' as (r & Hin & Hr).
        rewrite Forall_forall in Hall. specialize (Hall r Hin). lia.
Qed.

(** ** The cells of a row *)

Lemma fold_clean_dom (its : list (pystr * option pystr)) (m : dict) (s : pystr) :
  is_Some
    (foldl (fun (m : dict) kv =>
              <[strip (fst kv) := strip (default [] (snd kv))]> m) m its !! s)
  <-> is_Some (m !! s) \/ s ∈ strip <$> its.*1.
Proof using.
  clear unicode_lower.
  revert m. induction its as [|[k v] its IH]; intros m; cbn [foldl].
  - rewrite !fmap_nil, elem_of_nil. tauto.
  - rewrite IH, !fmap_cons, elem_of_cons. cbn [fst snd].
    destruct (decide (s = strip k)) as [->|Hne].
    + rewrite lookup_insert_eq. split; [intros _; right; by left|].
      intros _. left. by eexists.
    + rewrite lookup_insert_ne by congruence. tauto.
Qed.

Lemma fold_clean_values (its : list (pystr * option pystr)) (m : dict) :
  (forall k v, m !! k = Some v -> strip v = v) ->
  forall k v,
    foldl (fun (m : dict) kv =>
             <[strip (fst kv) := strip (default [] (snd kv))]> m) m its !! k
    = Some v ->
    strip v = v.
Proof using.
  revert m. induction its as [|[k0 v0] its IH]; intros m Hm; cbn [foldl].
  - exact Hm.
  - apply IH. intros k v. cbn [fst snd].
    destruct (decide (k = strip k0)) as [->|Hne].
    + rewrite lookup_insert_eq. intros [= <-]. apply strip_idem.
    + rewrite lookup_insert_ne by congruence. apply Hm.
Qed.

(** X8. What the reader hands over when no record is longer than the
    header record: the header names and every cell are trimmed, there
    is one row for each record that is not blank, and every row has a
    value for each header name and for nothing else. *)
Theorem read_csv_rows_are_header_shaped
        (fieldnames : list pystr) (body : list (list pystr)) :
  Forall (fun r => (length r <= length fieldnames)%nat) body ->
  exists headers rows,
    read_csv (fieldnames :: body) = Ok (headers, rows)
    /\ headers = List.map strip fieldnames
    /\ length rows = length (List.filter nonblank body)
    /\ (forall h, h ∈ headers -> strip h = h)
    /\ (forall row, row ∈ rows ->
          (forall k, is_Some (row !! k) <-> k ∈ headers)
          /\ (forall k v, row !! k = Some v -> strip v = v)).
Proof using.
  clear unicode_lower.
  intros Hall. eexists _, _. split.
  { cbn [read_csv]. cbv zeta. by rewrite (read_rows_ok _ _ Hall). }
  split; [reflexivity|]. split; [by rewrite length_map|]. split.
  - intros h Hh. apply list_elem_of_In, in_map_iff in Hh as (f & <- & _).
    apply strip_idem.
  - intros row Hrow.
    apply list_elem_of_In, in_map_iff in Hrow as (r & <- & Hr).
    apply filter_In in Hr as [Hr _]. apply list_elem_of_In in Hr.
    rewrite Forall_forall in Hall. specialize (Hall r Hr).
    unfold cleaned_of. split.
    + intros k. rewrite fold_clean_dom, lookup_empty.
      change (List.map strip fieldnames) with (strip <$> fieldnames).
      rewrite !list_elem_of_fmap. split.
      * intros [[? [=]]|(f & -> & Hf)]. exists f. split; [reflexivity|].
        by apply (dictreader_row_keys fieldnames r f Hall).
      * intros (f & -> & Hf). right. exists f. split; [reflexivity|].
        by apply (dictreader_row_keys fieldnames r f Hall).
    + apply fold_clean_values. intros k v. by rewrite lookup_empty.
Qed.

Lemma fold_some_nodup (kvs : list (pystr * pystr))
      (d : list (pystr * option pystr)) :
  NoDup d.*1 ->
  NoDup (foldl (fun d kv => od_set d (fst kv) (Some (snd kv))) d kvs).*1.
Proof using.
  clear unicode_lower.
  revert d. induction kvs as [|kv kvs IH]; intros d Hd; [exact Hd|].
  cbn [foldl]. apply IH. by apply od_set_nodup.
Qed.

Lemma fold_some_elem (kvs : list (pystr * pystr))
      (d : list (pystr * option pystr)) (k x : pystr) :
  NoDup d.*1 -> NoDup kvs.*1 -> (k, x) ∈ kvs ->
  (k, Some x) ∈ foldl (fun d kv => od_set d (fst kv) (Some (snd kv))) d kvs.
Proof using.
  clear unicode_lower.
  revert d. induction kvs as [|[k0 x0] kvs IH]; intros d Hd Hkvs Hin.
  - by apply elem_of_nil in Hin.
  - cbn [foldl fst snd]. rewrite fmap_cons in Hkvs.
    apply NoDup_cons in Hkvs as [Hk0 Hkvs]. cbn in Hk0.
    apply elem_of_cons in Hin as [[= -> ->]|Hin].
    + assert (Hkeep : forall kvs' d',
                 k0 ∉ kvs'.*1 -> (k0, Some x0) ∈ d' ->
                 (k0, Some x0)
                 ∈ foldl (fun d kv => od_set d (fst kv) (Some (snd kv))) d' kvs').
      { clear. induction kvs' as [|[k1 x1] kvs' IH']; intros d' Hk Hd';
          [exact Hd'|].
        cbn [foldl fst snd]. rewrite fmap_cons in Hk.
        apply not_elem_of_cons in Hk as [Hne Hk]. cbn in Hne.
        apply IH'; [exact Hk|].
        clear IH'. induction d' as [|[k2 v2] d' IHd]; cbn [od_set].
        - by apply elem_of_nil in Hd'.
        - case_decide as Hk12.
          + subst k2. apply elem_of_cons in Hd' as [[= ? ?]|Hd'];
              [congruence|]. by apply list_elem_of_further.
          + apply elem_of_cons in Hd' as [<-|Hd'];
              [apply list_elem_of_here|].
            apply list_elem_of_further. by apply IHd. }
      apply Hkeep; [exact Hk0|].
      apply od_set_elem; [exact Hd|]. by left.
    + apply IH; [by apply od_set_nodup|exact Hkvs|exact Hin].
Qed.

Lemma fold_none_elem (ks : list pystr) (d : list (pystr * option pystr))
      (k : pystr) (v : option pystr) :
  NoDup d.*1 ->
  (k, v) ∈ foldl (fun d k => od_set d k None) d ks
  <-> (k ∈ ks /\ v = None) \/ ((k ∉ ks) /\ (k, v) ∈ d).
Proof using.
  clear unicode_lower.
  revert d. induction ks as [|k0 ks IH]; intros d Hd; cbn [foldl].
  - rewrite elem_of_nil. tauto.
  - rewrite (IH _ (od_set_nodup d k0 None Hd)), (od_set_elem d k0 k None v Hd).
    rewrite !elem_of_cons.
    destruct (decide (k = k0)) as [->|Hne]; [|tauto].
    destruct (decide (k0 ∈ ks)); tauto.
Qed.

Lemma fmap_nodup_inj {A B} (f : A -> B) (l : list A) (x y : A) :
  NoDup (f <$> l) -> x ∈ l -> y ∈ l -> f x = f y -> x = y.
Proof using.
  induction l as [|a l IH]; intros Hnd Hx Hy Hxy.
  - by apply elem_of_nil in Hx.
  - rewrite fmap_cons in Hnd. apply NoDup_cons in Hnd as [Ha Hnd].
    apply elem_of_cons in Hx as [->|Hx], Hy as [->|Hy]; [reflexivity| | |auto].
    + exfalso. apply Ha. rewrite Hxy. by apply list_elem_of_fmap_2.
    + exfalso. apply Ha. rewrite <- Hxy. by apply list_elem_of_fmap_2.
Qed.

Lemma fold_clean_lookup (its : list (pystr * option pystr)) (m : dict)
      (k : pystr) (v : option pystr) :
  NoDup (strip <$> its.*1) -> (k, v) ∈ its ->
  foldl (fun (m : dict) kv =>
           <[strip (fst kv) := strip (default [] (snd kv))]> m) m its
  !! strip k
  = Some (strip (default [] v)).
Proof using.
  revert m. induction its as [|[k0 v0] its IH]; intros m Hnd Hin.
  - by apply elem_of_nil in Hin.
  - cbn [foldl fst snd]. rewrite !fmap_cons in Hnd.
    apply NoDup_cons in Hnd as [Hk0 Hnd]. cbn in Hk0.
    apply elem_of_cons in Hin as [[= -> ->]|Hin]; [|by apply IH].
    assert (Hkeep : forall its' (m' : dict),
               strip k0 ∉ strip <$> its'.*1 ->
               foldl (fun (m : dict) kv =>
                        <[strip (fst kv) := strip (default [] (snd kv))]> m)
                     m' its' !! strip k0
               = m' !! strip k0).
    { clear. induction its' as [|[k1 v1] its' IH']; intros m' Hk;
        [reflexivity|].
      cbn [foldl fst snd]. rewrite !fmap_cons in Hk.
      apply not_elem_of_cons in Hk as [Hne Hk]. cbn in Hne.
      rewrite IH' by exact Hk. by rewrite lookup_insert_ne. }
    rewrite Hkeep by exact Hk0. by rewrite lookup_insert_eq.
Qed.

(** The cell of a row under a header name, when the trimmed names are
    distinct. *)
Lemma cleaned_of_lookup (fieldnames row : list pystr) (i : nat) (f : pystr) :
  NoDup (strip <$> fieldnames) ->
  (length row <= length fieldnames)%nat ->
  fieldnames !! i = Some f ->
  cleaned_of fieldnames row !! strip f = Some (strip (default [] (row !! i))).
Proof using.
  clear unicode_lower.
  intros Hnd Hlen Hf.
  assert (Hnf : NoDup fieldnames) by (by apply NoDup_fmap_1 in Hnd).
  unfold cleaned_of. apply fold_clean_lookup.
  - apply NoDup_fmap_2_strong.
    + intros x y Hx Hy. apply (fmap_nodup_inj strip fieldnames); [exact Hnd| |].
      * by apply (dictreader_row_keys fieldnames row x Hlen).
      * by apply (dictreader_row_keys fieldnames row y Hlen).
    + unfold dictreader_row. cbv zeta.
      destruct (Nat.ltb_spec (length fieldnames) (length row)) as [?|_]; [lia|].
      cbn [items].
      assert (Hn : forall ks d, NoDup d.*1 ->
                     NoDup (foldl (fun d k => od_set d k None) d ks).*1).
      { induction ks as [|k ks IH]; intros d Hd; [exact Hd|].
        cbn [foldl]. apply IH. by apply od_set_nodup. }
      apply Hn, fold_some_nodup. rewrite fmap_nil. apply NoDup_nil_2.
  - unfold dictreader_row. cbv zeta.
    destruct (Nat.ltb_spec (length fieldnames) (length row)) as [?|_]; [lia|].
    cbn [items]. apply fold_none_elem.
    { apply fold_some_nodup. rewrite fmap_nil. apply NoDup_nil_2. }
    destruct (row !! i) as [x|] eqn:Hx.
    + right. apply lookup_lt_Some in Hx as Hi. split.
      * intros Hin. apply list_elem_of_lookup_1 in Hin as [j Hj].
        rewrite lookup_drop in Hj.
        pose proof (NoDup_lookup _ _ _ _ Hnf Hf Hj). lia.
      * apply fold_some_elem.
        -- rewrite fmap_nil. apply NoDup_nil_2.
        -- rewrite zip_fst_take.
           eapply sublist_NoDup; [exact Hnf|apply sublist_take].
        -- apply list_elem_of_lookup_2 with i. apply lookup_zip_with_Some.
           by exists f, x.
    + left. split; [|reflexivity]. apply lookup_ge_None in Hx.
      apply list_elem_of_lookup_2 with (i - length row)%nat.
      rewrite lookup_drop. by replace (length row + (i - length row))%nat
        with i by lia.
Qed.

Lemma strip_nil : strip [] = [].
Proof using. reflexivity. Qed.

(** A row read and written again. *)
Lemma cleaned_of_written (fieldnames row : list pystr) :
  NoDup (strip <$> fieldnames) ->
  (length row <= length fieldnames)%nat ->
  dict_to_list (List.map strip fieldnames) (cleaned_of fieldnames row)
  = List.map strip row ++ replicate (length fieldnames - length row) [].
Proof using.
  clear unicode_lower.
  intros Hnd Hlen. apply list_eq. intros j.
  destruct (fieldnames !! j) as [f|] eqn:Hf.
  - assert (Hj : List.map strip fieldnames !! j = Some (strip f)).
    { change (List.map strip fieldnames) with (strip <$> fieldnames).
      by rewrite list_lookup_fmap, Hf. }
    rewrite (dict_to_list_lookup _ _ _ _ Hj). unfold get.
    rewrite (cleaned_of_lookup fieldnames row j f Hnd Hlen Hf).
    cbn [default from_option].
    apply lookup_lt_Some in Hf as Hjf.
    destruct (row !! j) as [x|] eqn:Hx.
    + apply lookup_lt_Some in Hx as Hjr.
      rewrite lookup_app_l by (by rewrite length_map).
      change (List.map strip row) with (strip <$> row).
      by rewrite list_lookup_fmap, Hx.
    + apply lookup_ge_None in Hx as Hjr.
      rewrite lookup_app_r by (by rewrite length_map).
      rewrite length_map, lookup_replicate_2 by lia. reflexivity.
  - apply lookup_ge_None in Hf as Hjf.
    rewrite !(proj2 (lookup_ge_None _ _)); [reflexivity| |].
    + rewrite length_app, length_map, length_replicate. lia.
    + by rewrite dict_to_list_length, length_map.
Qed.

(** X9. Read then written, a table keeps its cells: when the trimmed
    header names are distinct and no record is longer than the header
    record, writing the rows of the reader against its header list
    gives, for each record that is not blank, the trimmed cells of the
    record followed by an empty cell for every header it has no cell
    for. *)
Theorem read_then_written_rows
        (fieldnames : list pystr) (body : list (list pystr)) :
  NoDup (List.map strip fieldnames) ->
  Forall (fun r => (length r <= length fieldnames)%nat) body ->
  exists headers rows,
    read_csv (fieldnames :: body) = Ok (headers, rows)
    /\ List.map (dict_to_list headers) rows
       = List.map (fun r => List.map strip r
                            ++ replicate (length fieldnames - length r) [])
                  (List.filter nonblank body).
Proof using.
  clear unicode_lower.
  intros Hnd Hall. eexists _, _. split.
  { cbn [read_csv]. cbv zeta. by rewrite (read_rows_ok _ _ Hall). }
  rewrite map_map. apply map_ext_in. intros r Hr.
  apply filter_In in Hr as [Hr _]. apply list_elem_of_In in Hr.
  rewrite Forall_forall in Hall. by apply cleaned_of_written, Hall.
Qed.

(** ** From the input file to the output file *)

Lemma prepare_from_records_spec
      (fieldnames : list pystr) (body : list (list pystr)) :
  Forall (fun r => (length r <= length fieldnames)%nat) body ->
  first_missing [COL_PRENOM; COL_NOM; COL_CONSENT] (List.map strip fieldnames)
  = None ->
  exists e,
    let headers := List.map strip fieldnames in
    let rows := List.map (cleaned_of fieldnames) (List.filter nonblank body) in
    prepare_from_records (fieldnames :: body) = Ok (Done e)
    /\ written e = lines_of headers rows.
Proof using.
  intros Hall Hcols. unfold prepare_from_records.
  cbn [read_csv]. cbv zeta. rewrite (read_rows_ok _ _ Hall).
  rewrite prepare_public_csv_spec by exact Hcols. cbv zeta.
  eexists. split; reflexivity.
Qed.

Lemma cleaned_of_has_header (fieldnames r : list pystr) (col : pystr) :
  (length r <= length fieldnames)%nat ->
  col ∈ List.map strip fieldnames ->
  is_Some (cleaned_of fieldnames r !! col).
Proof using.
  clear unicode_lower.
  intros Hr Hcol. unfold cleaned_of. apply fold_clean_dom. right.
  change (List.map strip fieldnames) with (strip <$> fieldnames) in Hcol.
  apply list_elem_of_fmap in Hcol as (f & -> & Hf).
  apply list_elem_of_fmap_2.
  by apply (dictreader_row_keys fieldnames r f Hr).
Qed.

(** C3. For every pending row of the table read from the input file,
    every column of the sensitive set holds, in the row written for
    that member, the value of the placeholder map for it: the
    placeholder address for the primary e-mail, the two undisclosed
    strings for the institution and the status, and the empty string
    for every other sensitive column. The rows are those [read_csv]
    returns, which have a key for every header, so the guard of the
    redaction loop ([if col in masked]) lets every header column
    through. Every column outside the sensitive set holds the value
    read. *)
Theorem pending_sensitive_fields_masked
        (fieldnames : list pystr) (body : list (list pystr)) :
  Forall (fun r => (length r <= length fieldnames)%nat) body ->
  COL_PRENOM ∈ List.map strip fieldnames ->
  COL_NOM ∈ List.map strip fieldnames ->
  COL_CONSENT ∈ List.map strip fieldnames ->
  exists e headers rows,
    read_csv (fieldnames :: body) = Ok (headers, rows)
    /\ prepare_from_records (fieldnames :: body) = Ok (Done e)
    /\ (forall n d,
          List.filter is_pending rows !! n = Some d ->
          exists line,
            written e !! (1 + length (List.filter is_public rows) + n)%nat
            = Some line
            /\ (forall j col,
                  headers !! j = Some col -> col ∈ COLS_SENSITIVE ->
                  line !! j = Some (get PLACEHOLDER col))
            /\ (forall j col,
                  headers !! j = Some col -> col ∉ COLS_SENSITIVE ->
                  line !! j = Some (get d col)))
    /\ get PLACEHOLDER COL_EMAIL = py "membre@rsn-placeholder.ca"
    /\ get PLACEHOLDER COL_INSTITUTION = py "Institution non divulguée"
    /\ get PLACEHOLDER COL_STATUT = py "Non divulgué"
    /\ (forall col, col ∈ COLS_SENSITIVE ->
          col <> COL_EMAIL -> col <> COL_INSTITUTION -> col <> COL_STATUT ->
          get PLACEHOLDER col = []).
Proof using.
  intros Hall Hp Hn Hc.
  assert (Hcols : first_missing [COL_PRENOM; COL_NOM; COL_CONSENT]
                                (List.map strip fieldnames) = None)
    by (apply first_missing_None; auto).
  unfold prepare_from_records. cbn [read_csv]. cbv zeta.
  rewrite (read_rows_ok _ _ Hall).
  rewrite prepare_public_csv_spec by exact Hcols. cbv zeta.
  eexists _, _, _. split; [reflexivity|]. split; [reflexivity|].
  split; [|exact placeholder_values].
  intros n d Hd. cbn [written]. unfold lines_of.
  exists (dict_to_list (List.map strip fieldnames) (mask d)).
  split; [|split].
  - change (1 + ?a + n)%nat with (S (a + n)). rewrite lookup_cons.
    rewrite lookup_app_r by (rewrite length_map; lia).
    rewrite length_map.
    replace (_ + n - _)%nat with n by lia.
    rewrite lookup_app_l
      by (rewrite length_map; by apply lookup_lt_Some in Hd).
    change (List.map ?f ?l) with (f <$> l).
    rewrite list_lookup_fmap, Hd. reflexivity.
  - intros j col Hj Hcol.
    apply list_elem_of_lookup_2, list_elem_of_In, filter_In in Hd as [Hd _].
    apply in_map_iff in Hd as (r & <- & Hr).
    apply filter_In in Hr as [Hr _]. apply list_elem_of_In in Hr.
    rewrite Forall_forall in Hall. specialize (Hall r Hr).
    rewrite (dict_to_list_lookup _ _ _ _ Hj). f_equal.
    unfold get at 1. rewrite mask_lookup, bool_decide_eq_true_2 by exact Hcol.
    destruct (cleaned_of_has_header fieldnames r col Hall) as [v ->];
      [by apply list_elem_of_lookup_2 in Hj|reflexivity].
  - intros j col Hj Hcol.
    rewrite (dict_to_list_lookup _ _ _ _ Hj). f_equal.
    by apply get_mask_other.
Qed.

(** X10. From file to file, a pending member keeps no sensitive value:
    in the row written for a pending member, every header column of the
    sensitive set holds the value of the placeholder map for it, or the
    empty string when the map has none. The reader gives every row a
    key for each header, so no sensitive column escapes the loop. *)
Theorem pipeline_masks_every_sensitive_column
        (fieldnames : list pystr) (body : list (list pystr)) :
  Forall (fun r => (length r <= length fieldnames)%nat) body ->
  COL_PRENOM ∈ List.map strip fieldnames ->
  COL_NOM ∈ List.map strip fieldnames ->
  COL_CONSENT ∈ List.map strip fieldnames ->
  exists e headers rows,
    prepare_from_records (fieldnames :: body) = Ok (Done e)
    /\ read_csv (fieldnames :: body) = Ok (headers, rows)
    /\ written e
       = headers
           :: List.map (dict_to_list headers) (List.filter is_public rows)
           ++ List.map (fun d => dict_to_list headers (mask d))
                       (List.filter is_pending rows)
           ++ [dict_to_list headers (make_stats_row headers (tally e))]
    /\ (forall d j col,
          d ∈ List.filter is_pending rows ->
          headers !! j = Some col -> col ∈ COLS_SENSITIVE ->
          dict_to_list headers (mask d) !! j = Some (get PLACEHOLDER col)).
Proof using.
  intros Hall Hp Hn Hc.
  assert (Hcols : first_missing [COL_PRENOM; COL_NOM; COL_CONSENT]
                                (List.map strip fieldnames) = None)
    by (apply first_missing_None; auto).
  unfold prepare_from_records. cbn [read_csv]. cbv zeta.
  rewrite (read_rows_ok _ _ Hall).
  rewrite prepare_public_csv_spec by exact Hcols. cbv zeta.
  eexists _, _, _. split; [reflexivity|]. split; [reflexivity|].
  cbn [written tally]. split; [reflexivity|].
  intros d j col Hd Hj Hcol.
  apply list_elem_of_In, filter_In in Hd as [Hd _].
  apply in_map_iff in Hd as (r & <- & Hr).
  apply filter_In in Hr as [Hr _]. apply list_elem_of_In in Hr.
  rewrite Forall_forall in Hall. specialize (Hall r Hr).
  rewrite (dict_to_list_lookup _ _ _ _ Hj). f_equal.
  unfold get at 1. rewrite mask_lookup, bool_decide_eq_true_2 by exact Hcol.
  assert (Hsome : is_Some (cleaned_of fieldnames r !! col)).
  { unfold cleaned_of. apply fold_clean_dom. right.
    apply list_elem_of_lookup_2 in Hj.
    change (List.map strip fieldnames) with (strip <$> fieldnames) in Hj.
    apply list_elem_of_fmap in Hj as (f & -> & Hf).
    apply list_elem_of_fmap_2.
    by apply (dictreader_row_keys fieldnames r f Hall). }
  destruct Hsome as [v ->]. reflexivity.
Qed.

(** X11. From file to file, a public member is republished as read:
    when the trimmed header names are distinct, the rows written for
    the public members are the trimmed cells of their records, in the
    order of the file, each followed by an empty cell for every header
    it has no cell for. *)
Theorem pipeline_republishes_public_records
        (fieldnames : list pystr) (body : list (list pystr)) :
  NoDup (List.map strip fieldnames) ->
  Forall (fun r => (length r <= length fieldnames)%nat) body ->
  COL_PRENOM ∈ List.map strip fieldnames ->
  COL_NOM ∈ List.map strip fieldnames ->
  COL_CONSENT ∈ List.map strip fieldnames ->
  exists e pending_and_stats,
    prepare_from_records (fieldnames :: body) = Ok (Done e)
    /\ written e
       = List.map strip fieldnames
           :: List.map (fun r => List.map strip r
                                 ++ replicate (length fieldnames - length r) [])
                       (List.filter
                          (fun r => nonblank r
                                    && is_public (cleaned_of fieldnames r))
                          body)
           ++ pending_and_stats.
Proof using.
  intros Hnd Hall Hp Hn Hc.
  assert (Hcols : first_missing [COL_PRENOM; COL_NOM; COL_CONSENT]
                                (List.map strip fieldnames) = None)
    by (apply first_missing_None; auto).
  destruct (prepare_from_records_spec fieldnames body Hall Hcols)
    as (e & He & Hw).
  exists e. eexists. split; [exact He|]. rewrite Hw. unfold lines_of.
  f_equal. f_equal.
  rewrite filter_map_comm, map_map, filter_filter_and.
  apply map_ext_in. intros r Hr.
  apply filter_In in Hr as [Hr _]. apply list_elem_of_In in Hr.
  rewrite Forall_forall in Hall. by apply cleaned_of_written, Hall.
Qed.

(** X12. On the records that [csv.reader] yields, the whole run ends
    in one of four ways, tried in this order:
    no record at all raises [TypeError]; a record longer than the
    header record raises [AttributeError], also when a critical column
    is missing, since the table is read before the columns are
    checked; a missing critical column exits with status 1; otherwise
    the file is written. Only the last writes anything. *)
Theorem run_outcomes (fieldnames : list pystr) (body : list (list pystr))
        (disk : option (list (list pystr))) :
  let headers := List.map strip fieldnames in
  let critical :=
    COL_PRENOM ∈ headers /\ COL_NOM ∈ headers /\ COL_CONSENT ∈ headers in
  let fits := Forall (fun r => (length r <= length fieldnames)%nat) body in
  prepare_from_records [] = Raise TypeError
  /\ (~ fits -> prepare_from_records (fieldnames :: body) = Raise AttributeError)
  /\ (fits -> ~ critical ->
      prepare_from_records (fieldnames :: body) = Ok (SysExit 1))
  /\ (fits -> critical ->
      exists e, prepare_from_records (fieldnames :: body) = Ok (Done e)
                /\ file_after disk (prepare_from_records (fieldnames :: body))
                   = Some (written e))
  /\ (~ (fits /\ critical) ->
      file_after disk (prepare_from_records (fieldnames :: body)) = disk)
  /\ file_after disk (prepare_from_records []) = disk.
Proof using.
  cbv zeta.
  assert (Hlong : ~ Forall (fun r => (length r <= length fieldnames)%nat) body ->
                  prepare_from_records (fieldnames :: body)
                  = Raise AttributeError).
  { intros Hex. apply not_Forall_Exists in Hex; [|intros r; apply _].
    unfold prepare_from_records. cbn [read_csv]. cbv zeta.
    rewrite read_rows_raises; [reflexivity|].
    eapply Exists_impl; [exact Hex|]. intros r Hr. cbn in Hr. lia. }
  assert (Hexit : Forall (fun r => (length r <= length fieldnames)%nat) body ->
                  ~ (COL_PRENOM ∈ List.map strip fieldnames
                     /\ COL_NOM ∈ List.map strip fieldnames
                     /\ COL_CONSENT ∈ List.map strip fieldnames) ->
                  prepare_from_records (fieldnames :: body) = Ok (SysExit 1)).
  { intros Hall Hcrit. unfold prepare_from_records. cbn [read_csv]. cbv zeta.
    rewrite (read_rows_ok _ _ Hall). unfold prepare_public_csv.
    destruct (first_missing _ (List.map strip fieldnames)) eqn:Hcols;
      [reflexivity|].
    exfalso. apply Hcrit. by apply first_missing_None. }
  assert (Hdone : Forall (fun r => (length r <= length fieldnames)%nat) body ->
                  COL_PRENOM ∈ List.map strip fieldnames
                  /\ COL_NOM ∈ List.map strip fieldnames
                  /\ COL_CONSENT ∈ List.map strip fieldnames ->
                  exists e, prepare_from_records (fieldnames :: body)
                            = Ok (Done e)).
  { intros Hall Hcrit. apply first_missing_None in Hcrit.
    destruct (prepare_from_records_spec fieldnames body Hall Hcrit)
      as (e & He & _).
    by exists e. }
  split; [reflexivity|]. split; [exact Hlong|]. split; [exact Hexit|].
  split; [|split; [|reflexivity]].
  - intros Hall Hcrit. destruct (Hdone Hall Hcrit) as [e He].
    exists e. split; [exact He|]. by rewrite He.
  - intros Hnot.
    destruct (decide (Forall (fun r => (length r <= length fieldnames)%nat) body))
      as [Hall|Hex].
    + rewrite Hexit; [reflexivity|exact Hall|]. tauto.
    + by rewrite Hlong.
Qed.

(** X13. With no named row in the input, and that includes the empty
    input, the table written is the header row and a statistics row
    whose counters are all zero. *)
Theorem no_member_no_row (headers : list pystr) (rows : list dict) :
  COL_PRENOM ∈ headers -> COL_NOM ∈ headers -> COL_CONSENT ∈ headers ->
  Forall (fun d => nameless d = true) rows ->
  exists e,
    prepare_public_csv headers rows = Done e
    /\ tally e = Counters 0 0 0 0
    /\ written e
       = [headers;
          dict_to_list headers (make_stats_row headers (Counters 0 0 0 0))]
    /\ get (make_stats_row headers (Counters 0 0 0 0)) COL_EMAIL
       = py "0,0,0,0".
Proof using.
  intros Hp Hn Hc Hall.
  assert (Hcols : first_missing [COL_PRENOM; COL_NOM; COL_CONSENT] headers = None)
    by (apply first_missing_None; auto).
  rewrite prepare_public_csv_spec by exact Hcols. cbv zeta.
  eexists. split; [reflexivity|]. cbn [tally written].
  assert (Hnone : forall (f : dict -> bool),
             (forall d, nameless d = true -> f d = false) ->
             List.filter f rows = []).
  { intros f Hf. induction Hall as [|d rows Hd _ IH]; [reflexivity|].
    cbn [List.filter]. by rewrite (Hf d Hd). }
  assert (Hcl : forall d, nameless d = true -> classify d = None)
    by (intros d Hd; unfold classify; by rewrite Hd).
  assert (Ht : tally_of (Counters 0 0 0 0) rows = Counters 0 0 0 0).
  { clear Hnone. unfold tally_of.
    induction Hall as [|d rows Hd _ IH]; [reflexivity|]. cbn [foldl].
    assert (He : is_excluded d = false)
      by (unfold is_excluded; by rewrite (Hcl d Hd)).
    by rewrite He. }
  split; [exact Ht|]. split.
  - unfold lines_of. rewrite Ht.
    rewrite (Hnone is_public), (Hnone is_pending); [reflexivity| |].
    + intros d Hd. unfold is_pending. by rewrite (Hcl d Hd).
    + intros d Hd. unfold is_public. by rewrite (Hcl d Hd).
  - rewrite stats_row_get.
    destruct critical_columns_distinct as (H1 & H2 & H3 & H4 & H5 & H6).
    rewrite decide_False by congruence. rewrite decide_True by reflexivity.
    vm_compute. reflexivity.
Qed.

(** * The encoding *)

(** A well-formed text followed by more bytes is well-formed when the
    bytes that follow are. *)
Lemma utf8_valid_app (p q : list N) :
  utf8_valid p = true -> utf8_valid (p ++ q) = utf8_valid q.
Proof using.
  remember (length p) as n eqn:Hn. revert p Hn.
  induction n as [n IH] using lt_wf_ind. intros p Hn Hp.
  destruct p as [|b p]; [reflexivity|].
  cbn [utf8_valid app] in *.
  destruct (b <? 128).
  { apply (IH (length p)); [subst n; cbn; lia|reflexivity|exact Hp]. }
  destruct ((194 <=? b) && (b <=? 223)).
  { destruct p as [|c1 p]; [discriminate Hp|]. cbn [app].
    apply andb_true_iff in Hp as [-> Hp]. cbn [andb].
    apply (IH (length p)); [subst n; cbn; lia|reflexivity|exact Hp]. }
  destruct ((224 <=? b) && (b <=? 239)).
  { destruct p as [|c1 [|c2 p]]; try discriminate Hp. cbn [app].
    apply andb_true_iff in Hp as [Hc Hp]. rewrite Hc. cbn [andb].
    apply (IH (length p)); [subst n; cbn; lia|reflexivity|exact Hp]. }
  destruct ((240 <=? b) && (b <=? 244)); [|discriminate Hp].
  destruct p as [|c1 [|c2 [|c3 p]]]; try discriminate Hp. cbn [app].
  apply andb_true_iff in Hp as [Hc Hp]. rewrite Hc. cbn [andb].
  apply (IH (length p)); [subst n; cbn; lia|reflexivity|exact Hp].
Qed.

Lemma utf8_valid_ascii (p : list N) :
  Forall (fun b => b < 128) p -> utf8_valid p = true.
Proof using.
  induction 1 as [|b p Hb _ IH]; [reflexivity|].
  cbn [utf8_valid]. apply N.ltb_lt in Hb. by rewrite Hb.
Qed.

Lemma utf8_valid_lone (b : N) : 128 <= b -> utf8_valid [b] = false.
Proof using.
  intros Hb. cbn [utf8_valid].
  destruct (N.ltb_spec b 128); [lia|].
  by repeat destruct (_ && _).
Qed.

(** X14. The detection looks at the first 500 bytes only. It answers
    "utf-8" for a file whose first 500 bytes are ASCII, and for every
    well-formed file of at most 500 bytes. It answers "iso-8859-1" for
    a file, well-formed UTF-8 or not, whose byte 500 is not ASCII after
    499 well-formed bytes: a character that straddles the cut makes the
    sample end in the middle of a sequence. *)
Theorem detect_encoding_reads_a_prefix (file : list N) :
  detect_encoding file = detect_encoding (take 500 file)
  /\ (forall more, (500 <= length file)%nat ->
        detect_encoding (file ++ more) = detect_encoding file)
  /\ (Forall (fun b => b < 128) (take 500 file) ->
      detect_encoding file = py "utf-8")
  /\ ((length file <= 500)%nat -> utf8_valid file = true ->
      detect_encoding file = py "utf-8")
  /\ (forall p b rest,
        file = p ++ b :: rest -> length p = 499%nat ->
        utf8_valid p = true -> 128 <= b ->
        detect_encoding file = py "iso-8859-1").
Proof using.
  unfold detect_encoding. cbv zeta. split; [|split; [|split; [|split]]].
  - by rewrite take_take, Nat.min_id.
  - intros more Hlen. by rewrite take_app_le.
  - intros Hascii. by rewrite utf8_valid_ascii.
  - intros Hlen Hv. by rewrite take_ge, Hv.
  - intros p b rest -> Hp Hv Hb.
    replace (take 500 (p ++ b :: rest)) with (p ++ [b]).
    + by rewrite (utf8_valid_app p [b] Hv), utf8_valid_lone.
    + rewrite take_app_ge by lia. rewrite Hp. reflexivity.
Qed.

(** * The workbook *)

Lemma sheet_named_elem {A} (sheets : list (pystr * sheet A))
      (name : pystr) (s : sheet A) :
  sheet_named sheets name = Some s -> (name, s) ∈ sheets.
Proof using.
  induction sheets as [|[title s'] sheets IH]; [discriminate|].
  cbn [sheet_named]. case_decide as Ht.
  - intros [= <-]. subst title. apply list_elem_of_here.
  - intros H. apply list_elem_of_further. by apply IH.
Qed.

Lemma sheet_named_none {A} (sheets : list (pystr * sheet A))
      (name : pystr) :
  sheet_named sheets name = None <-> name ∉ sheets.*1.
Proof using.
  clear unicode_lower.
  induction sheets as [|[title s'] sheets IH]; cbn [sheet_named].
  - rewrite fmap_nil, elem_of_nil. tauto.
  - rewrite fmap_cons, not_elem_of_cons. cbn. case_decide as Ht.
    + subst title. split; [discriminate|]. tauto.
    + rewrite IH. split; [|tauto]. intros H. split; [congruence|exact H].
Qed.

Lemma sheet_named_app {A} (l1 l2 : list (pystr * sheet A)) (name : pystr) :
  sheet_named (l1 ++ l2) name
  = match sheet_named l1 name with
    | Some s => Some s
    | None => sheet_named l2 name
    end.
Proof using.
  induction l1 as [|[title s] l1 IH]; [reflexivity|].
  cbn [app sheet_named]. by case_decide.
Qed.

Lemma worksheets_elem {A} (wb : list (pystr * sheet A)) (t : pystr)
      (s : sheet A) :
  (t, s) ∈ worksheets wb <-> (t, s) ∈ wb /\ exists rows, s = Worksheet rows.
Proof using.
  clear unicode_lower.
  unfold worksheets. rewrite !list_elem_of_In, filter_In.
  unfold is_worksheet. cbn [snd]. split.
  - intros [H Hs]. split; [exact H|]. destruct s; [by eexists|discriminate].
  - intros [H [rows ->]]. by split.
Qed.

Lemma chartsheets_elem {A} (wb : list (pystr * sheet A)) (t : pystr)
      (s : sheet A) :
  (t, s) ∈ chartsheets wb <-> (t, s) ∈ wb /\ s = Chartsheet.
Proof using.
  clear unicode_lower.
  unfold chartsheets. rewrite !list_elem_of_In, filter_In.
  unfold is_worksheet. cbn [snd]. split.
  - intros [H Hs]. split; [exact H|]. by destruct s.
  - intros [H ->]. by split.
Qed.

Lemma title_elem {A} (sheets : list (pystr * sheet A)) (name : pystr) :
  name ∈ sheets.*1 <-> exists s, (name, s) ∈ sheets.
Proof using.
  clear unicode_lower.
  rewrite list_elem_of_fmap. split.
  - intros ([t s] & -> & H). by exists s.
  - intros [s H]. by exists (name, s).
Qed.

(** X15. The table exported from a workbook. The lookup [wb[name]]
    finds a sheet exactly for the titles of [wb.sheetnames]. The
    export fails with [IndexError] exactly when no sheet has the name
    and the workbook has no worksheet, and with [AttributeError]
    exactly when the name is the title of a chart sheet and of no
    worksheet; it fails in no other way. Otherwise the table is taken
    from the worksheet of that name, or from the first worksheet when
    no sheet has the name; it has the shape of the worksheet and all
    its cells are trimmed, so the trimming of the reader leaves it as
    it is. A cell with a link whose target is not empty is exported as
    that target, whatever it displays; a cell with neither value nor
    link is exported empty. *)
Theorem excel_to_csv_table {A} (str_other : A -> pystr)
        (wb : list (pystr * sheet A)) (sheet_name : pystr) :
  (workbook_getitem wb sheet_name = None <-> sheet_name ∉ sheetnames wb)
  /\ (excel_to_csv str_other wb sheet_name = Raise IndexError
      <-> (sheet_name ∉ sheetnames wb) /\ worksheets wb = [])
  /\ (excel_to_csv str_other wb sheet_name = Raise AttributeError
      <-> (sheet_name, Chartsheet) ∈ wb
          /\ (forall rows, (sheet_name, Worksheet rows) ∉ wb))
  /\ excel_to_csv str_other wb sheet_name <> Raise TypeError
  /\ (forall table,
        excel_to_csv str_other wb sheet_name = Ok table ->
        exists title rows,
          (title, Worksheet rows) ∈ wb
          /\ (title = sheet_name
              \/ ((sheet_name ∉ sheetnames wb)
                  /\ head (worksheets wb) = Some (title, Worksheet rows)))
          /\ table = List.map (List.map (cell_text str_other)) rows
          /\ List.map (@length pystr) table = List.map (@length (cell A)) rows
          /\ List.map (List.map strip) table = table)
  /\ (forall (c : cell A) t,
        cell_hyperlink c = Some (Hyperlink (Some t)) -> t <> [] ->
        cell_text str_other c = strip t)
  /\ (forall c : cell A,
        value c = None ->
        (cell_hyperlink c = None
         \/ cell_hyperlink c = Some (Hyperlink None)
         \/ cell_hyperlink c = Some (Hyperlink (Some []))) ->
        cell_text str_other c = []).
Proof using.
  clear unicode_lower.
  assert (Hshape : forall ws : list (list (cell A)),
             List.map (@length pystr)
                      (List.map (List.map (cell_text str_other)) ws)
             = List.map (@length (cell A)) ws
             /\ List.map (List.map strip)
                         (List.map (List.map (cell_text str_other)) ws)
                = List.map (List.map (cell_text str_other)) ws).
  { intros ws. rewrite !map_map. split.
    - apply map_ext. intros row. apply length_map.
    - apply map_ext. intros row. rewrite map_map. apply map_ext.
      intros c. unfold cell_text. cbv zeta. apply strip_idem. }
  assert (Hnames : forall name,
             name ∈ sheetnames wb
             <-> name ∈ (worksheets wb).*1 \/ name ∈ (chartsheets wb).*1).
  { intros name. unfold sheetnames.
    change (List.map fst wb) with (wb.*1). rewrite !title_elem. split.
    - intros [[rows|] H].
      + left. exists (Worksheet rows). apply worksheets_elem. eauto.
      + right. exists Chartsheet. by apply chartsheets_elem.
    - intros [[s H]|[s H]]; exists s.
      + by apply worksheets_elem in H as [H _].
      + by apply chartsheets_elem in H as [H _]. }
  assert (Hnone : forall name,
             name ∉ (worksheets wb).*1
             <-> forall rows, (name, Worksheet rows) ∉ wb).
  { intros name. rewrite title_elem. split.
    - intros H rows Hin. apply H. exists (Worksheet rows).
      apply worksheets_elem. eauto.
    - intros H [s Hs]. apply worksheets_elem in Hs as [Hs [rows ->]].
      by apply (H rows). }
  assert (Hcells :
            (forall (c : cell A) t,
                cell_hyperlink c = Some (Hyperlink (Some t)) -> t <> [] ->
                cell_text str_other c = strip t)
            /\ (forall c : cell A,
                  value c = None ->
                  (cell_hyperlink c = None
                   \/ cell_hyperlink c = Some (Hyperlink None)
                   \/ cell_hyperlink c = Some (Hyperlink (Some []))) ->
                  cell_text str_other c = [])).
  { split.
    - intros c t Hc Ht. unfold cell_text. cbv zeta. rewrite Hc. cbn [target].
      destruct t; [done|reflexivity].
    - intros c Hv Hc. unfold cell_text. cbv zeta. rewrite Hv.
      destruct Hc as [-> | [-> | ->]]; reflexivity. }
  assert (Hfirst : forall t s l,
             worksheets wb = (t, s) :: l ->
             exists rows, s = Worksheet rows /\ (t, Worksheet rows) ∈ wb).
  { intros t s l Hl.
    assert (Hs : (t, s) ∈ worksheets wb)
      by (rewrite Hl; apply list_elem_of_here).
    apply worksheets_elem in Hs as [Hs [rows ->]]. by exists rows. }
  unfold excel_to_csv, workbook_getitem. cbv zeta.
  rewrite sheet_named_app.
  destruct (sheet_named (worksheets wb) sheet_name) as [s|] eqn:Hw.
  - (* a worksheet has the name *)
    pose proof (sheet_named_elem _ _ _ Hw) as Hs.
    apply worksheets_elem in Hs as [Hs [rows ->]].
    assert (Hin : sheet_name ∈ sheetnames wb).
    { apply Hnames. left. apply title_elem. eexists.
      apply worksheets_elem. eauto. }
    split; [split; [discriminate|done]|].
    split; [split; [discriminate|intros [H _]; done]|].
    split; [split; [discriminate|intros [_ H]; by destruct (H rows)]|].
    split; [discriminate|].
    split; [|exact Hcells].
    intros table [= <-]. exists sheet_name, rows.
    split; [exact Hs|]. split; [by left|]. split; [reflexivity|apply Hshape].
  - apply sheet_named_none in Hw.
    destruct (sheet_named (chartsheets wb) sheet_name) as [s|] eqn:Hc.
    + (* a chart sheet has the name, and no worksheet *)
      pose proof (sheet_named_elem _ _ _ Hc) as Hs.
      apply chartsheets_elem in Hs as [Hs ->].
      assert (Hin : sheet_name ∈ sheetnames wb).
      { apply Hnames. right. apply title_elem. eexists.
        apply chartsheets_elem. eauto. }
      split; [split; [discriminate|done]|].
      split; [split; [discriminate|intros [H _]; done]|].
      split; [split; [intros _; split; [exact Hs|by apply Hnone]|reflexivity]|].
      split; [discriminate|].
      split; [discriminate|exact Hcells].
    + (* no sheet has the name *)
      apply sheet_named_none in Hc.
      assert (Hin : sheet_name ∉ sheetnames wb) by (rewrite Hnames; tauto).
      assert (Hno : (sheet_name, @Chartsheet A) ∉ wb).
      { intros H. apply Hin. unfold sheetnames.
        change (List.map fst wb) with (wb.*1). apply title_elem. eauto. }
      split; [done|].
      destruct (worksheets wb) as [|[t s] l] eqn:Hl.
      * split; [done|].
        split; [split; [discriminate|intros [H _]; done]|].
        split; [discriminate|].
        split; [discriminate|exact Hcells].
      * destruct (Hfirst t s l eq_refl) as (rows & -> & Hs).
        split; [split; [discriminate|intros [_ H]; discriminate H]|].
        split; [split; [discriminate|intros [H _]; done]|].
        split; [discriminate|].
        split; [|exact Hcells].
        intros table [= <-]. exists t, rows.
        split; [exact Hs|]. split; [right; by split|].
        split; [reflexivity|apply Hshape].
Qed.

End Run.

(** * Closed instances

    The theorems above at the sample inputs, and the input at which
    the example of the specification fails. The case tables
    beyond Latin-1 are fixed to [keep_beyond_latin1]. *)

Section Samples.

#[local] Abbreviation lower := (lower keep_beyond_latin1).
#[local] Abbreviation loop_body := (loop_body keep_beyond_latin1).
#[local] Abbreviation classification_pass :=
  (classification_pass keep_beyond_latin1).
#[local] Abbreviation prepare_public_csv :=
  (prepare_public_csv keep_beyond_latin1).
#[local] Abbreviation is_public := (is_public keep_beyond_latin1).
#[local] Abbreviation is_pending := (is_pending keep_beyond_latin1).
#[local] Abbreviation prepare_from_records :=
  (prepare_from_records keep_beyond_latin1).

(** The classifier at the second sample row, which refuses. *)
Lemma classifier_first_match_wins_witness :
  let st := initial sample_rows in
  let row := 1%nat in
  let d := deref (heap st) row in
  let consent := lower (strip (get d COL_CONSENT)) in
  let st' := loop_body st row in
  (nameless d = false)
  /\
  (st' = match disposition_of consent with
        | Public =>
            State (heap st) (public_rows st ++ [row]) (pending_rows st)
                  (excluded_stats st)
        | Excluded =>
            State (heap st) (public_rows st) (pending_rows st)
                  (count_excluded (lower (strip (get d COL_TYPE)))
                                  (excluded_stats st))
        | Pending =>
            State (heap st ++ [mask d]) (public_rows st)
                  (pending_rows st ++ [length (heap st)]) (excluded_stats st)
        end
  /\ (disposition_of consent = Public
        <-> startswith consent (py "oui") = true)
  /\ (disposition_of consent = Excluded
        <-> startswith consent (py "oui") = false
            /\ startswith consent (py "non") = true)
  /\ (disposition_of consent = Pending
        <-> startswith consent (py "oui") = false
            /\ startswith consent (py "non") = false)
  /\ (public_rows st' = public_rows st ++ [row]
        <-> disposition_of consent = Public)
  /\ (total (excluded_stats st') = (total (excluded_stats st) + 1)%Z
        <-> disposition_of consent = Excluded)
  /\ (pending_rows st' = pending_rows st ++ [length (heap st)]
        <-> disposition_of consent = Pending)
  /\ (d !! COL_CONSENT = None \/ strip (get d COL_CONSENT) = []
        -> disposition_of consent = Pending)).
Proof.
  cbv zeta.
  split; [sample_fact|].
  apply (classifier_first_match_wins keep_beyond_latin1 (initial sample_rows) 1%nat); sample_fact.
Defined.

(** The assembly of the three sample rows. *)
Lemma export_assembly_witness :
  let headers := sample_headers in
  let rows := sample_rows in
  (COL_PRENOM ∈ headers)
  /\
  (COL_NOM ∈ headers)
  /\
  (COL_CONSENT ∈ headers)
  /\
  (exists e,
    prepare_public_csv headers rows = Done e
    /\ written e =
         headers
           :: List.map (dict_to_list headers) (List.filter is_public rows)
           ++ List.map (fun d => dict_to_list headers (mask d))
                       (List.filter is_pending rows)
           ++ [dict_to_list headers (make_stats_row headers (tally e))]
    /\ written e =
         headers
           :: List.map (fun l => dict_to_list headers (deref (final_heap e) l))
                       (all_public e)
    /\ (forall d : dict,
          (is_public d = true
           <-> nameless d = false
               /\ startswith (lower (strip (get d COL_CONSENT))) (py "oui")
                  = true)
          /\ (is_pending d = true
              <-> nameless d = false
                  /\ startswith (lower (strip (get d COL_CONSENT))) (py "oui")
                     = false
                  /\ startswith (lower (strip (get d COL_CONSENT))) (py "non")
                     = false))
    /\ (forall d : dict,
          length (dict_to_list headers d) = length headers
          /\ (forall j h, headers !! j = Some h ->
                dict_to_list headers d !! j = Some (default [] (d !! h)))
          /\ (forall j h, headers !! j = Some h -> d !! h = None ->
                dict_to_list headers d !! j = Some [])
          /\ (forall k v, k ∉ headers ->
                dict_to_list headers (<[k := v]> d) = dict_to_list headers d))).
Proof.
  cbv zeta.
  split; [sample_fact|].
  split; [sample_fact|].
  split; [sample_fact|].
  apply (export_assembly keep_beyond_latin1 sample_headers sample_rows); sample_fact.
Defined.

(** The statistics row of the three sample rows. *)
Lemma statistics_record_last_witness :
  let headers := sample_headers in
  let rows := sample_rows in
  (COL_PRENOM ∈ headers)
  /\
  (COL_NOM ∈ headers)
  /\
  (COL_CONSENT ∈ headers)
  /\
  (exists e,
    let st := classification_pass rows in
    let stats_row := length (heap st) in
    let cells := dict_to_list headers (make_stats_row headers (tally e)) in
    prepare_public_csv headers rows = Done e
    /\ tally e = excluded_stats st
    /\ all_public e = public_rows st ++ pending_rows st ++ [stats_row]
    /\ (stats_row ∉ public_rows st ++ pending_rows st)
    /\ (stats_row ∉ seq 0 (length rows))
    /\ final_heap e = heap st ++ [make_stats_row headers (tally e)]
    /\ last (written e) = Some cells
    /\ length (written e)
        = (1 + length (public_rows st) + length (pending_rows st) + 1)%nat
    /\ cells =
         List.map (fun h =>
                     if decide (h = COL_PRENOM) then STATS_ROW_MARKER
                     else if decide (h = COL_EMAIL) then
                       str_of_int (total (tally e)) ++ py ","
                       ++ str_of_int (regulier (tally e)) ++ py ","
                       ++ str_of_int (etudiant (tally e)) ++ py ","
                       ++ str_of_int (partenaire (tally e))
                     else if decide (h = COL_CONSENT) then py "stats"
                     else [])
                  headers).
Proof.
  cbv zeta.
  split; [sample_fact|].
  split; [sample_fact|].
  split; [sample_fact|].
  apply (statistics_record_last keep_beyond_latin1 sample_headers sample_rows); sample_fact.
Defined.

(** The refusal in the middle of the three sample rows. *)
Lemma refusal_counted_not_published_witness :
  let headers := sample_headers in
  let l1 := [named_row1] in
  let l2 := [named_row3] in
  let d := named_row2 in
  (COL_PRENOM ∈ headers)
  /\
  (COL_NOM ∈ headers)
  /\
  (COL_CONSENT ∈ headers)
  /\
  (nameless d = false)
  /\
  (startswith (lower (strip (get d COL_CONSENT))) (py "non") = true)
  /\
  (exists e e' body,
    let t := lower (strip (get d COL_TYPE)) in
    let reg := contains t (py "régulier") || contains t (py "regulier") in
    let stu := contains t (py "étudiant") || contains t (py "etudiant") in
    let par := contains t (py "partenaire") in
    prepare_public_csv headers (l1 ++ d :: l2) = Done e
    /\ prepare_public_csv headers (l1 ++ l2) = Done e'
    /\ (length l1 ∉ all_public e)
    /\ (dict_to_list headers d ∉ written e)
    /\ written e = headers :: body
                    ++ [dict_to_list headers (make_stats_row headers (tally e))]
    /\ written e' = headers :: body
                    ++ [dict_to_list headers (make_stats_row headers (tally e'))]
    /\ total (tally e) = (total (tally e') + 1)%Z
    /\ regulier (tally e)
        = (regulier (tally e') + if reg then 1 else 0)%Z
    /\ etudiant (tally e)
        = (etudiant (tally e') + if negb reg && stu then 1 else 0)%Z
    /\ partenaire (tally e)
        = (partenaire (tally e')
           + if negb reg && negb stu && par then 1 else 0)%Z).
Proof.
  cbv zeta.
  split; [sample_fact|].
  split; [sample_fact|].
  split; [sample_fact|].
  split; [sample_fact|].
  split; [sample_fact|].
  apply (refusal_counted_not_published keep_beyond_latin1 sample_headers ([named_row1]) ([named_row3]) named_row2); sample_fact.
Defined.

(** A row with a blank first name between two sample rows. *)
Lemma nameless_row_discarded_witness :
  let headers := sample_headers in
  let l1 := [named_row1] in
  let l2 := [named_row3] in
  let d := nameless_row in
  (nameless d = true)
  /\
  ((forall st row, deref (heap st) row = d -> loop_body st row = st)
  /\ (forall disk,
        output_after disk (prepare_public_csv headers (l1 ++ d :: l2))
        = output_after disk (prepare_public_csv headers (l1 ++ l2)))
  /\ (forall e,
        prepare_public_csv headers (l1 ++ d :: l2) = Done e ->
        (length l1 ∉ all_public e)
        /\ (dict_to_list headers d ∉ written e)
        /\ exists e',
             prepare_public_csv headers (l1 ++ l2) = Done e'
             /\ written e' = written e /\ tally e' = tally e)).
Proof.
  cbv zeta.
  split; [sample_fact|].
  apply (nameless_row_discarded keep_beyond_latin1 sample_headers ([named_row1]) ([named_row3]) nameless_row); sample_fact.
Defined.

(** The redactor at the third sample row. *)
Lemma redactor_is_pure_witness :
  let st := initial sample_rows in
  let row := 2%nat in
  let d := deref (heap st) row in
  let st' := loop_body st row in
  let masked := length (heap st) in
  (nameless d = false)
  /\
  (startswith (lower (strip (get d COL_CONSENT))) (py "oui") = false)
  /\
  (startswith (lower (strip (get d COL_CONSENT))) (py "non") = false)
  /\
  ((forall l, (l < length (heap st))%nat -> heap st' !! l = heap st !! l)
  /\ length (heap st') = S (length (heap st))
  /\ pending_rows st' = pending_rows st ++ [masked]
  /\ public_rows st' = public_rows st
  /\ (forall k, k ∉ COLS_SENSITIVE ->
        deref (heap st') masked !! k = d !! k)
  /\ (forall st2 row2,
        deref (heap st2) row2 = d ->
        deref (heap (loop_body st2 row2)) (length (heap st2))
        = deref (heap st') masked)
  /\ (forall headers rows e,
        prepare_public_csv headers rows = Done e ->
        forall l, (l < length rows)%nat -> final_heap e !! l = rows !! l)).
Proof.
  cbv zeta.
  split; [sample_fact|].
  split; [sample_fact|].
  split; [sample_fact|].
  apply (redactor_is_pure keep_beyond_latin1 (initial sample_rows) 2%nat); sample_fact.
Defined.

(** The pending member whose record has no e-mail key. *)
Lemma redactor_adds_no_key_witness :
  let headers := sample_headers in
  let l1 := @nil dict in
  let l2 := @nil dict in
  let d := row_without_email in
  (COL_PRENOM ∈ headers)
  /\
  (COL_NOM ∈ headers)
  /\
  (COL_CONSENT ∈ headers)
  /\
  (nameless d = false)
  /\
  (startswith (lower (strip (get d COL_CONSENT))) (py "oui") = false)
  /\
  (startswith (lower (strip (get d COL_CONSENT))) (py "non") = false)
  /\
  (exists e m,
    let rows := l1 ++ d :: l2 in
    let masked := (length rows + length (List.filter is_pending l1))%nat in
    let i := (1 + length (List.filter is_public rows)
              + length (List.filter is_pending l1))%nat in
    prepare_public_csv headers rows = Done e
    /\ final_heap e !! masked = Some m
    /\ masked ∈ all_public e
    /\ written e !! i = Some (dict_to_list headers m)
    /\ dom m = dom d
    /\ (forall col, col ∈ COLS_SENSITIVE -> d !! col = None ->
          m !! col = None
          /\ forall j, headers !! j = Some col ->
                dict_to_list headers m !! j = Some [])
    /\ COL_EMAIL ∈ COLS_SENSITIVE
    /\ get PLACEHOLDER COL_EMAIL <> []).
Proof.
  cbv zeta.
  split; [sample_fact|].
  split; [sample_fact|].
  split; [sample_fact|].
  split; [sample_fact|].
  split; [sample_fact|].
  split; [sample_fact|].
  apply (redactor_adds_no_key keep_beyond_latin1 sample_headers (@nil dict) (@nil dict) row_without_email); sample_fact.
Defined.

(** The example under the five sample columns. *)
Lemma example_with_names_witness :
  let headers := sample_headers in
  (COL_PRENOM ∈ headers)
  /\
  (COL_NOM ∈ headers)
  /\
  (COL_CONSENT ∈ headers)
  /\
  (exists e,
    prepare_public_csv headers [named_row1; named_row2; named_row3] = Done e
    /\ tally e = Counters 1 0 1 0
    /\ written e =
         [ headers;
           dict_to_list headers named_row1;
           dict_to_list headers
             (<[COL_EMAIL := py "membre@rsn-placeholder.ca"]> named_row3);
           dict_to_list headers (make_stats_row headers (Counters 1 0 1 0)) ]
    /\ get (make_stats_row headers (Counters 1 0 1 0)) COL_EMAIL = py "1,0,1,0").
Proof.
  cbv zeta.
  split; [sample_fact|].
  split; [sample_fact|].
  split; [sample_fact|].
  apply (example_with_names keep_beyond_latin1 sample_headers); sample_fact.
Defined.


(** The counters of the three sample rows. *)
Lemma tally_counts_refusals_witness :
  let headers := sample_headers in
  let rows := sample_rows in
  (COL_PRENOM ∈ headers)
  /\
  (COL_NOM ∈ headers)
  /\
  (COL_CONSENT ∈ headers)
  /\
  (exists e,
    prepare_public_csv headers rows = Done e
    /\ total (tally e)
       = Z.of_nat
           (length
              (List.filter
                 (fun d => negb (nameless d)
                           && startswith (lower (strip (get d COL_CONSENT)))
                                         (py "non"))
                 rows))
    /\ (0 <= regulier (tally e))%Z /\ (0 <= etudiant (tally e))%Z
    /\ (0 <= partenaire (tally e))%Z
    /\ (regulier (tally e) + etudiant (tally e) + partenaire (tally e)
        <= total (tally e))%Z).
Proof.
  cbv zeta.
  split; [sample_fact|].
  split; [sample_fact|].
  split; [sample_fact|].
  apply (tally_counts_refusals keep_beyond_latin1 sample_headers sample_rows); [sample_fact|sample_fact|sample_fact].
Defined.

(** The table of the three sample rows. *)
Lemma written_table_is_rectangular_witness :
  let headers := sample_headers in
  let rows := sample_rows in
  (COL_PRENOM ∈ headers)
  /\
  (COL_NOM ∈ headers)
  /\
  (COL_CONSENT ∈ headers)
  /\
  (exists e,
    prepare_public_csv headers rows = Done e
    /\ (forall line, line ∈ written e -> length line = length headers)
    /\ length (written e)
       = (2 + length (List.filter is_public rows)
          + length (List.filter is_pending rows))%nat).
Proof.
  cbv zeta.
  split; [sample_fact|].
  split; [sample_fact|].
  split; [sample_fact|].
  apply (written_table_is_rectangular keep_beyond_latin1 sample_headers sample_rows); [sample_fact|sample_fact|sample_fact].
Defined.

(** The refusing sample member under another e-mail address. *)
Lemma refusing_member_fields_do_not_leak_witness :
  let headers := sample_headers in
  let l1 := [named_row1] in
  let l2 := [named_row3] in
  let d1 := named_row2 in
  let d2 := named_row2' in
  let disk := @None (list (list pystr)) in
  (nameless d1 = false)
  /\
  (startswith (lower (strip (get d1 COL_CONSENT))) (py "non") = true)
  /\
  (nameless d2 = false)
  /\
  (startswith (lower (strip (get d2 COL_CONSENT))) (py "non") = true)
  /\
  (get d1 COL_TYPE = get d2 COL_TYPE)
  /\
  (output_after disk (prepare_public_csv headers (l1 ++ d1 :: l2))
  = output_after disk (prepare_public_csv headers (l1 ++ d2 :: l2))).
Proof.
  cbv zeta.
  split; [sample_fact|].
  split; [sample_fact|].
  split; [sample_fact|].
  split; [sample_fact|].
  split; [sample_fact|].
  apply (refusing_member_fields_do_not_leak keep_beyond_latin1 sample_headers ([named_row1]) ([named_row3]) named_row2 named_row2' (@None (list (list pystr)))); [sample_fact|sample_fact|sample_fact|sample_fact|sample_fact].
Defined.

(** The three rows of the example as the specification writes them. *)
Lemma no_member_no_row_witness :
  let headers := sample_headers in
  let rows := [spec_row1; spec_row2; spec_row3] in
  (COL_PRENOM ∈ headers)
  /\
  (COL_NOM ∈ headers)
  /\
  (COL_CONSENT ∈ headers)
  /\
  (Forall (fun d => nameless d = true) rows)
  /\
  (exists e,
    prepare_public_csv headers rows = Done e
    /\ tally e = Counters 0 0 0 0
    /\ written e
       = [headers;
          dict_to_list headers (make_stats_row headers (Counters 0 0 0 0))]
    /\ get (make_stats_row headers (Counters 0 0 0 0)) COL_EMAIL
       = py "0,0,0,0").
Proof.
  cbv zeta.
  split; [sample_fact|].
  split; [sample_fact|].
  split; [sample_fact|].
  split; [apply (bool_decide_unpack _); vm_compute; exact I|].
  apply (no_member_no_row keep_beyond_latin1 sample_headers ([spec_row1; spec_row2; spec_row3])); [sample_fact|sample_fact|sample_fact|apply (bool_decide_unpack _); vm_compute; exact I].
Defined.

(** The sample records: the last one, short of an e-mail address and
    of a consent, is a pending member. *)
Lemma pending_sensitive_fields_masked_witness :
  let fieldnames := sample_fieldnames in
  let body := sample_body in
  (Forall (fun r => (length r <= length fieldnames)%nat) body)
  /\
  (COL_PRENOM ∈ List.map strip fieldnames)
  /\
  (COL_NOM ∈ List.map strip fieldnames)
  /\
  (COL_CONSENT ∈ List.map strip fieldnames)
  /\
  (exists e headers rows,
    read_csv (fieldnames :: body) = Ok (headers, rows)
    /\ prepare_from_records (fieldnames :: body) = Ok (Done e)
    /\ (forall n d,
          List.filter is_pending rows !! n = Some d ->
          exists line,
            written e !! (1 + length (List.filter is_public rows) + n)%nat
            = Some line
            /\ (forall j col,
                  headers !! j = Some col -> col ∈ COLS_SENSITIVE ->
                  line !! j = Some (get PLACEHOLDER col))
            /\ (forall j col,
                  headers !! j = Some col -> col ∉ COLS_SENSITIVE ->
                  line !! j = Some (get d col)))
    /\ get PLACEHOLDER COL_EMAIL = py "membre@rsn-placeholder.ca"
    /\ get PLACEHOLDER COL_INSTITUTION = py "Institution non divulguée"
    /\ get PLACEHOLDER COL_STATUT = py "Non divulgué"
    /\ (forall col, col ∈ COLS_SENSITIVE ->
          col <> COL_EMAIL -> col <> COL_INSTITUTION -> col <> COL_STATUT ->
          get PLACEHOLDER col = [])).
Proof.
  cbv zeta.
  split; [apply (bool_decide_unpack _); vm_compute; exact I|].
  split; [sample_fact|].
  split; [sample_fact|].
  split; [sample_fact|].
  apply (pending_sensitive_fields_masked keep_beyond_latin1 sample_fieldnames sample_body); [apply (bool_decide_unpack _); vm_compute; exact I|sample_fact|sample_fact|sample_fact].
Defined.

(** The sample records, from file to file. *)
Lemma pipeline_masks_every_sensitive_column_witness :
  let fieldnames := sample_fieldnames in
  let body := sample_body in
  (Forall (fun r => (length r <= length fieldnames)%nat) body)
  /\
  (COL_PRENOM ∈ List.map strip fieldnames)
  /\
  (COL_NOM ∈ List.map strip fieldnames)
  /\
  (COL_CONSENT ∈ List.map strip fieldnames)
  /\
  (exists e headers rows,
    prepare_from_records (fieldnames :: body) = Ok (Done e)
    /\ read_csv (fieldnames :: body) = Ok (headers, rows)
    /\ written e
       = headers
           :: List.map (dict_to_list headers) (List.filter is_public rows)
           ++ List.map (fun d => dict_to_list headers (mask d))
                       (List.filter is_pending rows)
           ++ [dict_to_list headers (make_stats_row headers (tally e))]
    /\ (forall d j col,
          d ∈ List.filter is_pending rows ->
          headers !! j = Some col -> col ∈ COLS_SENSITIVE ->
          dict_to_list headers (mask d) !! j = Some (get PLACEHOLDER col))).
Proof.
  cbv zeta.
  split; [apply (bool_decide_unpack _); vm_compute; exact I|].
  split; [sample_fact|].
  split; [sample_fact|].
  split; [sample_fact|].
  apply (pipeline_masks_every_sensitive_column keep_beyond_latin1 sample_fieldnames sample_body); [apply (bool_decide_unpack _); vm_compute; exact I|sample_fact|sample_fact|sample_fact].
Defined.

(** The public member of the sample records. *)
Lemma pipeline_republishes_public_records_witness :
  let fieldnames := sample_fieldnames in
  let body := sample_body in
  (NoDup (List.map strip fieldnames))
  /\
  (Forall (fun r => (length r <= length fieldnames)%nat) body)
  /\
  (COL_PRENOM ∈ List.map strip fieldnames)
  /\
  (COL_NOM ∈ List.map strip fieldnames)
  /\
  (COL_CONSENT ∈ List.map strip fieldnames)
  /\
  (exists e pending_and_stats,
    prepare_from_records (fieldnames :: body) = Ok (Done e)
    /\ written e
       = List.map strip fieldnames
           :: List.map (fun r => List.map strip r
                                 ++ replicate (length fieldnames - length r) [])
                       (List.filter
                          (fun r => nonblank r
                                    && is_public (cleaned_of fieldnames r))
                          body)
           ++ pending_and_stats).
Proof.
  cbv zeta.
  split; [apply (bool_decide_unpack _); vm_compute; exact I|].
  split; [apply (bool_decide_unpack _); vm_compute; exact I|].
  split; [sample_fact|].
  split; [sample_fact|].
  split; [sample_fact|].
  apply (pipeline_republishes_public_records keep_beyond_latin1 sample_fieldnames sample_body); [apply (bool_decide_unpack _); vm_compute; exact I|apply (bool_decide_unpack _); vm_compute; exact I|sample_fact|sample_fact|sample_fact].
Defined.

(** The sample records. *)
Lemma read_csv_rows_are_header_shaped_witness :
  let fieldnames := sample_fieldnames in
  let body := sample_body in
  (Forall (fun r => (length r <= length fieldnames)%nat) body)
  /\
  (exists headers rows,
    read_csv (fieldnames :: body) = Ok (headers, rows)
    /\ headers = List.map strip fieldnames
    /\ length rows = length (List.filter nonblank body)
    /\ (forall h, h ∈ headers -> strip h = h)
    /\ (forall row, row ∈ rows ->
          (forall k, is_Some (row !! k) <-> k ∈ headers)
          /\ (forall k v, row !! k = Some v -> strip v = v))).
Proof.
  cbv zeta.
  split; [apply (bool_decide_unpack _); vm_compute; exact I|].
  apply (read_csv_rows_are_header_shaped sample_fieldnames sample_body); [apply (bool_decide_unpack _); vm_compute; exact I].
Defined.

(** The sample records, read and written. *)
Lemma read_then_written_rows_witness :
  let fieldnames := sample_fieldnames in
  let body := sample_body in
  (NoDup (List.map strip fieldnames))
  /\
  (Forall (fun r => (length r <= length fieldnames)%nat) body)
  /\
  (exists headers rows,
    read_csv (fieldnames :: body) = Ok (headers, rows)
    /\ List.map (dict_to_list headers) rows
       = List.map (fun r => List.map strip r
                            ++ replicate (length fieldnames - length r) [])
                  (List.filter nonblank body)).
Proof.
  cbv zeta.
  split; [apply (bool_decide_unpack _); vm_compute; exact I|].
  split; [apply (bool_decide_unpack _); vm_compute; exact I|].
  apply (read_then_written_rows sample_fieldnames sample_body); [apply (bool_decide_unpack _); vm_compute; exact I|apply (bool_decide_unpack _); vm_compute; exact I].
Defined.

(** The pending sample member under another e-mail address. *)
Lemma pending_sensitive_values_do_not_leak_witness :
  let headers := sample_headers in
  let l1 := [named_row1; named_row2] in
  let l2 := @nil dict in
  let d1 := named_row3 in
  let d2 := named_row3' in
  (nameless d1 = false)
  /\
  (startswith (lower (strip (get d1 COL_CONSENT))) (py "oui") = false)
  /\
  (startswith (lower (strip (get d1 COL_CONSENT))) (py "non") = false)
  /\
  (dom d1 = dom d2)
  /\
  (forall k, k ∉ COLS_SENSITIVE -> d1 !! k = d2 !! k)
  /\
  (output_after None (prepare_public_csv headers (l1 ++ d1 :: l2))
   = output_after None (prepare_public_csv headers (l1 ++ d2 :: l2))).
Proof.
  cbv zeta.
  assert (Hin : COL_EMAIL ∈ COLS_SENSITIVE)
    by (apply list_elem_of_In; vm_compute; by left).
  assert (Hdom : dom named_row3 = dom named_row3').
  { unfold named_row3'. rewrite dom_insert_L.
    assert (Hk : COL_EMAIL ∈ dom named_row3).
    { apply elem_of_dom.
      replace (named_row3 !! COL_EMAIL) with (Some (py "b@x.com"))
        by (vm_compute; reflexivity).
      by eexists. }
    set_solver. }
  assert (Hother : forall k, k ∉ COLS_SENSITIVE ->
                             named_row3 !! k = named_row3' !! k).
  { intros k Hk. unfold named_row3'. rewrite lookup_insert_ne; [reflexivity|].
    intros <-. by apply Hk. }
  split; [sample_fact|]. split; [sample_fact|]. split; [sample_fact|].
  split; [exact Hdom|]. split; [exact Hother|].
  apply (pending_sensitive_values_do_not_leak
           keep_beyond_latin1 sample_headers [named_row1; named_row2] []
           named_row3 named_row3' None);
    [sample_fact|sample_fact|sample_fact|exact Hdom|exact Hother].
Defined.

(** The packed counters of the example. *)
Lemma packed_counters_determine_tally_witness :
  let headers := sample_headers in
  let c1 := Counters 1 0 1 0 in
  let c2 := Counters 1 0 1 0 in
  (get (make_stats_row headers c1) COL_EMAIL
   = get (make_stats_row headers c2) COL_EMAIL)
  /\
  (c1 = c2
  /\ get (make_stats_row headers c1) COL_EMAIL
     = str_of_int (total c1) ++ [44] ++ str_of_int (regulier c1) ++ [44]
       ++ str_of_int (etudiant c1) ++ [44] ++ str_of_int (partenaire c1)
  /\ Forall numeral_char (str_of_int (total c1))
  /\ Forall numeral_char (str_of_int (regulier c1))
  /\ Forall numeral_char (str_of_int (etudiant c1))
  /\ Forall numeral_char (str_of_int (partenaire c1))).
Proof.
  cbv zeta. split; [reflexivity|].
  apply (packed_counters_determine_tally
           sample_headers (Counters 1 0 1 0) (Counters 1 0 1 0)).
  reflexivity.
Defined.

(** C9, as the specification states it, fails. The three rows of the
    example have neither a first name nor a last name, so the loop
    skips them all: the only row written after the header row is the
    statistics row, with four zero counters. *)
Lemma example_as_stated_counterexample :
  nameless spec_row1 = true /\ nameless spec_row2 = true
  /\ nameless spec_row3 = true
  /\ output_after None
       (prepare_public_csv sample_headers [spec_row1; spec_row2; spec_row3])
     = Some [ sample_headers;
              [STATS_ROW_MARKER; []; py "0,0,0,0"; []; py "stats"] ]
  /\ output_after None
       (prepare_public_csv sample_headers [spec_row1; spec_row2; spec_row3])
     <> Some [ sample_headers;
               dict_to_list sample_headers spec_row1;
               dict_to_list sample_headers
                 (<[COL_EMAIL := py "membre@rsn-placeholder.ca"]> spec_row3);
               dict_to_list sample_headers
                 (make_stats_row sample_headers (Counters 1 0 1 0)) ].
Proof.
  split; [vm_compute; reflexivity|]. split; [vm_compute; reflexivity|].
  split; [vm_compute; reflexivity|]. split; [vm_compute; reflexivity|].
  intros H. vm_compute in H. discriminate H.
Qed.

End Samples.
